(** * Avatar storage service: a shallow embedding of [storage.py] and [main.py]

    The development follows the layout of the repository:
    - [PyStr]: the Python string and path primitives the storage class calls
      ([str.replace], [str(int)], [os.path.join], [str(uuid.uuid4())]);
    - [Storage]: the class [LocalAvatarStorage] of [src/src/storage.py];
    - [Api]: the endpoints [upload_user_avatar] and [delete_user_avatar] of
      [src/main.py];
    - the properties of the specification, proved on those definitions.

    Disk, database and the trace of completed side effects are one explicit
    [World]; the code runs in a state-and-exception monad over it. *)

From Stdlib Require Import ZArith NArith Ascii String List DecimalString.
From Stdlib Require Import DecimalPos DecimalZ.
From Stdlib.Strings Require Import Byte.
From stdpp Require Import base gmap strings.

Local Open Scope string_scope.

(* ===================================================================== *)
(** * Python string and path primitives                                   *)
(* ===================================================================== *)

Module PyStr.

(** [all_chars f s]: every character of [s] satisfies [f]. *)
Fixpoint all_chars (f : ascii -> bool) (s : string) : bool :=
  match s with
  | EmptyString => true
  | String c s' => f c && all_chars f s'
  end.

(** [old in s] for a non-empty [old]. *)
Fixpoint str_contains (old s : string) : bool :=
  match s with
  | EmptyString => false
  | String _ s' => String.prefix old s || str_contains old s'
  end.

(** [s.replace(old, new)] for a non-empty [old] (both call sites of the
    repository pass a non-empty literal): the occurrences of [old] are found
    from left to right and do not overlap.  [skip] counts the characters of
    the occurrence being consumed. *)
Fixpoint str_replace_from (old new : string) (skip : nat) (s : string) : string :=
  match s with
  | EmptyString => EmptyString
  | String c s' =>
      match skip with
      | S k => str_replace_from old new k s'
      | O =>
          if String.prefix old s
          then new +:+ str_replace_from old new (String.length old - 1) s'
          else String c (str_replace_from old new 0 s')
      end
  end.

Definition str_replace (old new s : string) : string :=
  str_replace_from old new 0 s.

(** [str(n)] for a Python [int]. *)
Definition str_int (n : Z) : string :=
  NilZero.string_of_int (Z.to_int n).

(** The host operating system decides which module [os.path] is. *)
Inductive host_os := Posix | Windows.

Definition os_sep (os : host_os) : string :=
  match os with Posix => "/" | Windows => "\" end.

Definition is_sep (os : host_os) (c : ascii) : bool :=
  match os with
  | Posix => Ascii.eqb c "/"
  | Windows => Ascii.eqb c "\" || Ascii.eqb c "/"
  end.

Definition starts_with_sep (os : host_os) (s : string) : bool :=
  match s with
  | EmptyString => false
  | String c _ => is_sep os c
  end.

Fixpoint ends_with_sep (os : host_os) (s : string) : bool :=
  match s with
  | EmptyString => false
  | String c EmptyString => is_sep os c
  | String _ s' => ends_with_sep os s'
  end.

(** The paths [ntpath.splitdrive] may give a drive to: on [Windows], a path
    whose second character is a colon (a drive letter) or whose first two
    characters are separators (a UNC or device path).  Which of the latter
    have a drive depends on the version of Python; this test holds for all
    of them.  No path has a drive on [Posix]. *)
Definition has_drive (os : host_os) (s : string) : bool :=
  match os, s with
  | Windows, String c (String d _) =>
      Ascii.eqb d ":" || (is_sep Windows c && is_sep Windows d)
  | _, _ => false
  end.

(** [os.path.join(a, b)].  On [Posix] this is [posixpath.join].  On
    [Windows] it is [ntpath.join] for operands without a drive
    ([has_drive]), and for a first operand with a drive, other than a bare
    [<letter>:], joined to a second operand without drive that does not
    begin with a separator: the joins [upload_avatar] makes.  Outside of
    that, [ntpath.join] keeps or replaces the drive and this definition does
    not follow it; a statement about such operands says so by a hypothesis
    on [has_drive]. *)
Definition os_path_join (os : host_os) (a b : string) : string :=
  if starts_with_sep os b then b
  else if String.eqb a "" || ends_with_sep os a then a +:+ b
  else a +:+ os_sep os +:+ b.

Definition os_path_join3 (os : host_os) (a b c : string) : string :=
  os_path_join os (os_path_join os a b) c.

(** [uuid.uuid4()]: sixteen random bytes read as an integer, with the
    variant and version fields overwritten (RFC 4122, version 4). *)
Definition uuid4_int (random_bits : N) : N :=
  let i0 := N.modulo random_bits (2 ^ 128) in
  let i1 := N.ldiff i0 (N.shiftl 0xc000 48) in
  let i2 := N.lor i1 (N.shiftl 0x8000 48) in
  let i3 := N.ldiff i2 (N.shiftl 0xf000 64) in
  N.lor i3 (N.shiftl 4 76).

Definition hex_digit (n : N) : ascii :=
  match String.get (N.to_nat n) "0123456789abcdef" with
  | Some c => c
  | None => "0"%char
  end.

(** ['%0<width>x' % n], most significant digit first (of the low [width]
    nibbles of [n]). *)
Fixpoint hex_fixed (width : nat) (n : N) : string :=
  match width with
  | O => EmptyString
  | S w => String (hex_digit (N.land (N.shiftr n (4 * N.of_nat w)) 15)) (hex_fixed w n)
  end.

(** [str(u)] for a [uuid.UUID] with integer value [u]: the 32 hex digits
    grouped 8-4-4-4-12. *)
Definition str_uuid (u : N) : string :=
  let hex := hex_fixed 32 u in
  String.substring 0 8 hex +:+ "-" +:+ String.substring 8 4 hex +:+ "-" +:+
  String.substring 12 4 hex +:+ "-" +:+ String.substring 16 4 hex +:+ "-" +:+
  String.substring 20 12 hex.

(** The characters of a decimal integer, of a UUID, and of a file name. *)
Definition int_char (c : ascii) : bool :=
  match c with
  | "0" | "1" | "2" | "3" | "4" | "5" | "6" | "7" | "8" | "9" | "-" => true
  | _ => false
  end%char.

Definition uuid_char (c : ascii) : bool :=
  match c with
  | "0" | "1" | "2" | "3" | "4" | "5" | "6" | "7" | "8" | "9"
  | "a" | "b" | "c" | "d" | "e" | "f" | "-" => true
  | _ => false
  end%char.

(** A character of a file name: no separator of either system. *)
Definition name_char (c : ascii) : bool :=
  negb (Ascii.eqb c "/") && negb (Ascii.eqb c "\").

End PyStr.

Import PyStr.

(* ===================================================================== *)
(** * Exceptions, the world and the monad the code runs in               *)
(* ===================================================================== *)

Definition bytes := list byte.

(** Python exceptions.  [HTTPException] is FastAPI's; every other exception
    ([OSError], a database error, ...) is a [PyException] with its message.
    [Detail] lists the detail messages the repository raises; a message
    that interpolates [str(e)] keeps the exception [e]. *)
Inductive exn : Type :=
  | HTTPException (status_code : Z) (detail : Detail)
  | PyException (message : string)
with Detail : Type :=
  | UserNotFound                         (* main.py, lines 67, 114 and 137 *)
  | ReadFailed (e : exn)                 (* main.py, line 73 *)
  | UpdateUserFailed (e : exn)           (* main.py, line 93 *)
  | NoAvatar                             (* main.py, line 139 *)
  | FileTooLarge (max_size : Z)          (* storage.py, line 34 *)
  | SniffFailed (e : exn)                (* storage.py, line 43 *)
  | UnsupportedType (mime_type : string) (* storage.py, line 46 *)
  | WriteFailed (e : exn)                (* storage.py, line 76 *)
  | DeleteFailed (e : exn)               (* storage.py, line 91 *)
  | AvatarFileMissing.                   (* storage.py, line 93 *)

(** [models.py], class [User].  The primary key [id] is the key of the
    table [users] below. *)
Record User : Type := mkUser {
  username : string;
  avatar_path : option string
}.

(** [database.py], class [Settings]. *)
Record Settings : Type := mkSettings {
  DATABASE_URL : string;
  UPLOAD_DIR : string;
  MAX_AVATAR_SIZE : Z;
  BASE_URL : string
}.

(** Side effects that completed, in the order they happened. *)
Inductive Event : Type :=
  | EvMakedirs (path : string)
  | EvWrite (path : string) (content : bytes)
  | EvRemove (path : string)
  | EvCommit (user_id : Z) (path : option string).

(** The disk (regular files and directories, each under the key [Os.fs_key]
    gives its path), the committed user table, and the trace of completed
    effects.  Distinct keys are distinct files: links and [..] components
    are outside the model. *)
Record World : Type := mkWorld {
  files : gmap string bytes;
  dirs : gset string;
  users : gmap Z User;
  trace : list Event
}.

(** What the collaborators outside the repository do during one request:
    libmagic, the random source behind [uuid4], and the errors the operating
    system or the database may answer with.  An error is given by its
    message and raised as a [PyException]; [magic_from_buffer] answers with
    the MIME type on the right or raises on the left.  [open_error] is the
    refusal to open a file for writing; [write_error] is a write that fails
    on a file that was opened (a full disk, a quota), with the number of
    bytes that reached the disk before it did. *)
Record Env : Type := mkEnv {
  magic_from_buffer : bytes -> string + string;
  os_urandom : N;
  makedirs_error : string -> option string;
  open_error : string -> option string;
  write_error : string -> option (string * nat);
  remove_error : string -> option string;
  commit_error : option string;
  refresh_error : option string
}.

(** State and exceptions: a raised exception keeps the effects made so far. *)
Definition M (A : Type) : Type := World -> (exn + A) * World.

Definition ret {A} (a : A) : M A := fun w => (inr a, w).

Definition raise {A} (e : exn) : M A := fun w => (inl e, w).

Definition bind {A B} (m : M A) (k : A -> M B) : M B :=
  fun w => match m w with
           | (inr a, w') => k a w'
           | (inl e, w') => (inl e, w')
           end.

(** [try: body except Exception as e: handler e]. *)
Definition try_except {A} (body : M A) (handler : exn -> M A) : M A :=
  fun w => match body w with
           | (inl e, w') => handler e w'
           | r => r
           end.

Declare Scope py_scope.
Delimit Scope py_scope with py.
Notation "'let!' x ':=' m 'in' k" := (bind m (fun x => k))
  (at level 10, x name, m at level 100, k at level 200) : py_scope.
Notation "m ';;;' k" := (bind m (fun _ => k))
  (at level 100, k at level 200, right associativity) : py_scope.
Local Open Scope py_scope.

(** The status of the HTTP response: 200 for a returned value, the status of
    an [HTTPException], 500 for any other exception that leaves the
    endpoint. *)
Definition http_status {A} (r : exn + A) : Z :=
  match r with
  | inr _ => 200
  | inl (HTTPException code _) => code
  | inl (PyException _) => 500
  end%Z.

(* ===================================================================== *)
(** * The operating system and the database session                      *)
(* ===================================================================== *)

Module Os.

(** Windows reads both separators alike; a path names the file under its
    key. *)
Fixpoint normsep (s : string) : string :=
  match s with
  | EmptyString => EmptyString
  | String c s' => String (if Ascii.eqb c "/" then "\"%char else c) (normsep s')
  end.

Definition fs_key (os : host_os) (path : string) : string :=
  match os with Posix => path | Windows => normsep path end.

Definition is_file (os : host_os) (path : string) (w : World) : bool :=
  bool_decide (is_Some (files w !! fs_key os path)).

Definition is_dir (os : host_os) (path : string) (w : World) : bool :=
  bool_decide (fs_key os path ∈ dirs w).

(** [os.path.exists(path)]. *)
Definition path_exists (os : host_os) (path : string) (w : World) : bool :=
  is_file os path w || is_dir os path w.

(** [os.makedirs(path, exist_ok=True)] below an existing parent (the upload
    directory is created when [database.py] is imported): it raises when a
    regular file is in the way. *)
Definition makedirs (env : Env) (os : host_os) (path : string) : M unit :=
  fun w =>
    if is_file os path w then (inl (PyException "FileExistsError"), w)
    else match makedirs_error env path with
         | Some msg => (inl (PyException msg), w)
         | None =>
             (inr tt, mkWorld (files w) ({[fs_key os path]} ∪ dirs w) (users w)
                              (trace w ++ [EvMakedirs path]))
         end.

(** [with open(path, "wb") as f: f.write(content)], in its two steps.
    [open] raises and leaves the disk alone, or it creates the file, or
    empties the one that is there.  The bytes are written after that, at
    the latest when the block is left: a write that raises leaves the file
    with the bytes that reached the disk, a prefix of [content] that may be
    empty.  [EvWrite path bytes] records that the file at [path] was opened
    and holds [bytes]. *)
Definition write_file (env : Env) (os : host_os) (path : string) (content : bytes) : M unit :=
  fun w =>
    if is_dir os path w then (inl (PyException "IsADirectoryError"), w)
    else match open_error env path with
         | Some msg => (inl (PyException msg), w)
         | None =>
             match write_error env path with
             | Some (msg, n) =>
                 (inl (PyException msg),
                  mkWorld (<[fs_key os path := take n content]> (files w)) (dirs w) (users w)
                          (trace w ++ [EvWrite path (take n content)]))
             | None =>
                 (inr tt, mkWorld (<[fs_key os path := content]> (files w)) (dirs w) (users w)
                                  (trace w ++ [EvWrite path content]))
             end
         end.

(** [os.remove(path)]. *)
Definition remove (env : Env) (os : host_os) (path : string) : M unit :=
  fun w =>
    if is_dir os path w then (inl (PyException "IsADirectoryError"), w)
    else if negb (is_file os path w) then (inl (PyException "FileNotFoundError"), w)
    else match remove_error env path with
         | Some msg => (inl (PyException msg), w)
         | None =>
             (inr tt, mkWorld (delete (fs_key os path) (files w)) (dirs w) (users w)
                              (trace w ++ [EvRemove path]))
         end.

End Os.

Module Session.

(** The keys the table can hold.  With the SQLite database of the
    repository an [INTEGER] key has 64 bits, and for a Python [int] outside
    of them the driver raises [OverflowError] before any row is looked up. *)
Definition key_in_range (user_id : Z) : bool :=
  (- 2 ^ 63 <=? user_id)%Z && (user_id <? 2 ^ 63)%Z.

(** [session.get(User, user_id)], for a key the table can hold
    ([key_in_range]): the row under the key, or [None].  What the lookup of
    a key outside that range raises is not part of this definition; a
    statement about the lookup of a key without row says so by a hypothesis
    on [key_in_range]. *)
Definition get (user_id : Z) : M (option User) :=
  fun w => (inr (users w !! user_id), w).

(** [session.add(user); session.commit()] for the row [user_id]. *)
Definition commit (env : Env) (user_id : Z) (user : User) : M unit :=
  fun w =>
    match commit_error env with
    | Some msg => (inl (PyException msg), w)
    | None =>
        (inr tt, mkWorld (files w) (dirs w) (<[user_id := user]> (users w))
                         (trace w ++ [EvCommit user_id (avatar_path user)]))
    end.

(** [session.refresh(user)]: the row is read back. *)
Definition refresh (env : Env) (user_id : Z) (user : User) : M User :=
  fun w =>
    match refresh_error env with
    | Some msg => (inl (PyException msg), w)
    | None =>
        match users w !! user_id with
        | Some u => (inr u, w)
        | None => (inl (PyException "InvalidRequestError"), w)
        end
    end.

End Session.

(* ===================================================================== *)
(** * [storage.py]: class [LocalAvatarStorage]                            *)
(* ===================================================================== *)

Module Storage.

(** [self.allowed_mime_types]. *)
Definition allowed_mime_types : gset string :=
  {[ "image/jpeg"; "image/png"; "image/gif"; "image/jpg" ]}.

(** [self.mime_to_ext]. *)
Definition mime_to_ext : gmap string string :=
  <["image/jpeg" := "jpg"]> (<["image/png" := "png"]>
  (<["image/gif" := "gif"]> (<["image/jpg" := "jpg"]> ∅))).

Section WithSettings.

Variable settings : Settings.
Variable os : host_os.
Variable env : Env.

(** [_validate_file(self, file_content)]: size, then the type sniffed from
    the content. *)
Definition _validate_file (file_content : bytes) : M string :=
  if (Z.of_nat (length file_content) >? MAX_AVATAR_SIZE settings)%Z
  then raise (HTTPException 400 (FileTooLarge (MAX_AVATAR_SIZE settings)))
  else
    let! mime_type :=
      match magic_from_buffer env file_content with
      | inr m => ret m
      | inl msg => raise (HTTPException 400 (SniffFailed (PyException msg)))
      end in
    if bool_decide (mime_type ∈ allowed_mime_types)
    then ret mime_type
    else raise (HTTPException 400 (UnsupportedType mime_type)).

(** The directory, name and path [upload_avatar] computes. *)
Definition user_dir (user_id : Z) : string :=
  os_path_join os (UPLOAD_DIR settings) (str_int user_id).

Definition file_name (file_ext : string) : string :=
  str_uuid (uuid4_int (os_urandom env)) +:+ "." +:+ file_ext.

Definition file_path (user_id : Z) (file_ext : string) : string :=
  os_path_join os (user_dir user_id) (file_name file_ext).

(** [upload_avatar(self, user_id, file_content)]. *)
Definition upload_avatar (user_id : Z) (file_content : bytes) : M string :=
  let! mime_type := _validate_file file_content in
  let file_ext := default "jpg" (mime_to_ext !! mime_type) in
  Os.makedirs env os (user_dir user_id) ;;;
  try_except
    (Os.write_file env os (file_path user_id file_ext) file_content)
    (fun e => raise (HTTPException 500 (WriteFailed e))) ;;;
  let relative_path := os_path_join3 os "avatars" (str_int user_id) (file_name file_ext) in
  ret (str_replace "\" "/" relative_path).

(** The absolute path [delete_avatar] computes. *)
Definition abs_path (relative_path : string) : string :=
  os_path_join os (str_replace "avatars" "" (UPLOAD_DIR settings)) relative_path.

(** [delete_avatar(self, relative_path)]. *)
Definition delete_avatar (relative_path : string) : M unit :=
  fun w =>
    if Os.path_exists os (abs_path relative_path) w
    then try_except
           (Os.remove env os (abs_path relative_path))
           (fun e => raise (HTTPException 500 (DeleteFailed e))) w
    else raise (HTTPException 404 AvatarFileMissing) w.

(** [get_avatar_url(self, relative_path)]. *)
Definition get_avatar_url (relative_path : string) : string :=
  BASE_URL settings +:+ "/static/" +:+ relative_path.

End WithSettings.

End Storage.

(* ===================================================================== *)
(** * [main.py]: the avatar endpoints                                     *)
(* ===================================================================== *)

Module Api.

(** The multipart upload: the name and the content type are what the client
    declares; [file_read] is the outcome of [file.file.read()], the bytes on
    the right or the message of the exception on the left. *)
Record UploadFile : Type := mkUploadFile {
  filename : string;
  content_type : string;
  file_read : string + bytes
}.

(** The messages of the two responses. *)
Inductive Message : Type :=
  | AvatarUploaded     (* main.py, line 97 *)
  | AvatarDeleted.     (* main.py, line 148 *)

Record UploadResponse : Type := mkUploadResponse {
  up_message : Message;
  up_user_id : Z;
  up_avatar_path : option string;
  up_avatar_url : string
}.

Record DeleteResponse : Type := mkDeleteResponse {
  del_message : Message;
  del_user_id : Z
}.

(** The text an f-string puts for an [Optional[str]]. *)
Definition format_opt (s : option string) : string :=
  match s with Some p => p | None => "None" end.

Section WithSettings.

Variable settings : Settings.
Variable os : host_os.
Variable env : Env.

(** Step 5 of [upload_user_avatar]: the body of its [try]. *)
Definition persist_avatar_path (user_id : Z) (user : User) (new_avatar_path : string) : M User :=
  let user' := mkUser (username user) (Some new_avatar_path) in
  Session.commit env user_id user' ;;;
  Session.refresh env user_id user'.

(** Step 4 of [upload_user_avatar]: [if user.avatar_path:
    storage.delete_avatar(user.avatar_path)]; [None] and the empty string
    are false. *)
Definition delete_old_avatar (user : User) : M unit :=
  match avatar_path user with
  | Some (String _ _ as old_path) => Storage.delete_avatar settings os env old_path
  | _ => ret tt
  end.

(** [upload_user_avatar(user_id, file, session, storage)]. *)
Definition upload_user_avatar (user_id : Z) (file : UploadFile) : M UploadResponse :=
  let! found := Session.get user_id in
  match found with
  | None => raise (HTTPException 404 UserNotFound)
  | Some user =>
      let! file_content :=
        match file_read file with
        | inr content => ret content
        | inl msg => raise (HTTPException 500 (ReadFailed (PyException msg)))
        end in
      let! new_avatar_path := Storage.upload_avatar settings os env user_id file_content in
      delete_old_avatar user ;;;
      let! user' :=
        try_except
          (persist_avatar_path user_id user new_avatar_path)
          (fun e =>
             Storage.delete_avatar settings os env new_avatar_path ;;;
             raise (HTTPException 500 (UpdateUserFailed e))) in
      ret (mkUploadResponse AvatarUploaded user_id (avatar_path user')
             (Storage.get_avatar_url settings (format_opt (avatar_path user'))))
  end.

(** [delete_user_avatar(user_id, session, storage)]. *)
Definition delete_user_avatar (user_id : Z) : M DeleteResponse :=
  let! found := Session.get user_id in
  match found with
  | None => raise (HTTPException 404 UserNotFound)
  | Some user =>
      match avatar_path user with
      | Some (String _ _ as old_path) =>
          Storage.delete_avatar settings os env old_path ;;;
          let user' := mkUser (username user) None in
          Session.commit env user_id user' ;;;
          Session.refresh env user_id user' ;;;
          ret (mkDeleteResponse AvatarDeleted user_id)
      | _ => raise (HTTPException 400 NoAvatar)
      end
  end.

End WithSettings.

End Api.

(* ===================================================================== *)
(** * [main.py]: the user endpoints and the static mount                  *)
(* ===================================================================== *)

Module Users.

(** What [create_user] raises: the [HTTPException] of status 400 for a name
    that is taken (main.py, line 48), or whatever the session raises. *)
Inductive create_exn : Type :=
  | UsernameExists
  | SessionError (e : exn).

(** The status of the response of [create_user]. *)
Definition create_status {A} (r : create_exn + A) : Z :=
  match r with
  | inr _ => 200
  | inl UsernameExists => 400
  | inl (SessionError e) => http_status (@inl exn unit e)
  end%Z.

(** [session.exec(select(User).where(User.username == name)).first()]. *)
Definition select_by_username (name : string) (w : World) : option (Z * User) :=
  head (map_to_list (filter (fun row : Z * User => username row.2 = name) (users w))).

(** [create_user(user, session)].  The body of the request may carry an
    [id]; without one the database picks the key, [assigned_id].  An insert
    under a key that is taken violates the primary key. *)
Definition create_user (env : Env) (assigned_id : Z) (id : option Z) (user : User)
    : World -> (create_exn + Z * User) * World :=
  fun w =>
    match select_by_username (username user) w with
    | Some _ => (inl UsernameExists, w)
    | None =>
        let new_id := default assigned_id id in
        match users w !! new_id with
        | Some _ => (inl (SessionError (PyException "IntegrityError")), w)
        | None =>
            match Session.commit env new_id user w with
            | (inl e, w1) => (inl (SessionError e), w1)
            | (inr _, w1) =>
                match Session.refresh env new_id user w1 with
                | (inl e, w2) => (inl (SessionError e), w2)
                | (inr row, w2) => (inr (new_id, row), w2)
                end
            end
        end
    end.

(** The body of the response of [get_user]. *)
Record UserResponse : Type := mkUserResponse {
  get_id : Z;
  get_username : string;
  get_avatar_path : option string;
  get_avatar_url : option string
}.

(** [get_user(user_id, session, storage)]. *)
Definition get_user (settings : Settings) (user_id : Z) : M UserResponse :=
  let! found := Session.get user_id in
  match found with
  | None => raise (HTTPException 404 UserNotFound)
  | Some user =>
      let avatar_url :=
        match avatar_path user with
        | Some (String _ _ as path) => Some (Storage.get_avatar_url settings path)
        | _ => None
        end in
      ret (mkUserResponse user_id (username user) (avatar_path user) avatar_url)
  end.

(** The directory mounted at [/static] (main.py, lines 24 to 29). *)
Definition static_directory (settings : Settings) : string :=
  str_replace "avatars" "" (UPLOAD_DIR settings).

(** The file the mount serves for the part of a URL after [/static/]: the
    file at that path below the mounted directory. *)
Definition static_file (settings : Settings) (os : host_os) (path : string) (w : World)
    : option bytes :=
  files w !! Os.fs_key os (os_path_join os (static_directory settings) path).

End Users.

(* ===================================================================== *)
(** * Vocabulary of the statements                                        *)
(* ===================================================================== *)

Module Effects.

Import Storage.

(** The world after [upload_avatar] created the directory and wrote the
    file. *)
Definition uploaded (settings : Settings) (os : host_os) (env : Env)
    (user_id : Z) (file_ext : string) (content : bytes) (w : World) : World :=
  mkWorld
    (<[Os.fs_key os (file_path settings os env user_id file_ext) := content]> (files w))
    ({[Os.fs_key os (user_dir settings os user_id)]} ∪ dirs w)
    (users w)
    (trace w ++ [EvMakedirs (user_dir settings os user_id);
                 EvWrite (file_path settings os env user_id file_ext) content]).

(** The world after [os.remove] took the file at [path] away. *)
Definition removed (os : host_os) (path : string) (w : World) : World :=
  mkWorld (delete (Os.fs_key os path) (files w)) (dirs w) (users w)
          (trace w ++ [EvRemove path]).

(** The relative path of the avatar of [user_id] with extension [file_ext]. *)
Definition avatar_rel (env : Env) (user_id : Z) (file_ext : string) : string :=
  "avatars/" +:+ str_int user_id +:+ "/" +:+ file_name env file_ext.

(** The upload directory has the form [<root>/avatars], and [avatars] does
    not occur in [<root>]. *)
Definition avatars_layout (settings : Settings) (root : string) : Prop :=
  UPLOAD_DIR settings = root +:+ "/avatars" /\ str_contains "avatars" root = false.

(** The world after the row of [user_id] was committed as [user]. *)
Definition committed (user_id : Z) (user : User) (w : World) : World :=
  mkWorld (files w) (dirs w) (<[user_id := user]> (users w))
          (trace w ++ [EvCommit user_id (avatar_path user)]).

(** The removal step 4 of [upload_user_avatar] makes for [user]. *)
Definition old_avatar_removal (settings : Settings) (os : host_os) (user : User) : list Event :=
  match avatar_path user with
  | Some (String _ _ as old_path) => [EvRemove (Storage.abs_path settings os old_path)]
  | _ => []
  end.

(** The user row with the new avatar path. *)
Definition with_avatar (user : User) (path : string) : User :=
  mkUser (username user) (Some path).

End Effects.

Import Effects.

Module MoreEffects.

(** The world after [os.makedirs] made the directory of [user_id]. *)
Definition dir_made (settings : Settings) (os : host_os) (user_id : Z) (w : World) : World :=
  mkWorld (files w) ({[Os.fs_key os (Storage.user_dir settings os user_id)]} ∪ dirs w)
          (users w) (trace w ++ [EvMakedirs (Storage.user_dir settings os user_id)]).

(** The world after the file at [path] was opened for writing and the write
    raised with [written] on the disk. *)
Definition write_failed (os : host_os) (path : string) (written : bytes) (w : World) : World :=
  mkWorld (<[Os.fs_key os path := written]> (files w)) (dirs w) (users w)
          (trace w ++ [EvWrite path written]).

(** No two rows carry the same user name. *)
Definition unique_usernames (w : World) : Prop :=
  forall i j u v,
    users w !! i = Some u -> users w !! j = Some v -> username u = username v -> i = j.

End MoreEffects.

Import MoreEffects.

(* ===================================================================== *)
(** * Sample deployment, used to run the code on concrete requests        *)
(* ===================================================================== *)

Module Sample.

(** A sniffer that knows the PNG signature and calls the rest text. *)
Definition magic (content : bytes) : string + string :=
  match content with
  | x89 :: x50 :: x4e :: x47 :: _ => inr "image/png"
  | _ => inr "text/plain"
  end.

Definition png : bytes := [x89; x50; x4e; x47; x0d; x0a; x1a; x0a].

Definition text : bytes := [x74; x65; x78; x74].

Definition settings : Settings :=
  mkSettings "sqlite:///users.db" "uploads/avatars" 1024 "http://127.0.0.1:5005".

(** The same deployment with a limit of three bytes. *)
Definition tight_settings : Settings :=
  mkSettings "sqlite:///users.db" "uploads/avatars" 3 "http://127.0.0.1:5005".

Definition env : Env :=
  mkEnv magic 0 (fun _ => None) (fun _ => None) (fun _ => None) (fun _ => None) None None.

(** The database refuses the commit. *)
Definition env_commit_fails : Env :=
  mkEnv magic 0 (fun _ => None) (fun _ => None) (fun _ => None) (fun _ => None)
        (Some "OperationalError") None.

(** User 7 exists and has no avatar. *)
Definition world : World :=
  mkWorld ∅ {[ "uploads/avatars" ]} (<[7%Z := mkUser "alice" None]> ∅) [].

Definition old_rel : string := "avatars/7/11111111-1111-4111-8111-111111111111.jpg".

(** User 7 has an avatar, and its file is on the disk. *)
Definition world_with_avatar : World :=
  mkWorld (<["uploads/" +:+ old_rel := text]> ∅)
          {[ "uploads/avatars"; "uploads/avatars/7" ]}
          (<[7%Z := mkUser "alice" (Some old_rel)]> ∅) [].


Definition upload (content : bytes) : Api.UploadFile :=
  Api.mkUploadFile "me.png" "image/png" (inr content).

End Sample.

Module MoreSamples.

(** No file can be opened for writing. *)
Definition env_write_fails : Env :=
  mkEnv Sample.magic 0 (fun _ => None) (fun _ => Some "PermissionError") (fun _ => None)
        (fun _ => None) None None.

(** The disk is full after three bytes of any file. *)
Definition env_disk_full : Env :=
  mkEnv Sample.magic 0 (fun _ => None) (fun _ => None) (fun _ => Some ("ENOSPC", 3%nat))
        (fun _ => None) None None.

(** The database refuses the commit, and no file can be removed. *)
Definition env_commit_and_remove_fail : Env :=
  mkEnv Sample.magic 0 (fun _ => None) (fun _ => None) (fun _ => None)
        (fun _ => Some "PermissionError") (Some "OperationalError") None.

(** The draw behind [Sample.old_rel]. *)
Definition env_old_draw : Env :=
  mkEnv Sample.magic 0x11111111111111110111111111111111 (fun _ => None) (fun _ => None)
        (fun _ => None) (fun _ => None) None None.

(** A second random draw. *)
Definition env_other_draw : Env :=
  mkEnv Sample.magic 1 (fun _ => None) (fun _ => None) (fun _ => None) (fun _ => None)
        None None.

(** A file outside the upload tree, and no user yet. *)
Definition world_with_hosts : World :=
  mkWorld (<["/etc/hosts" := Sample.text]> ∅) {[ "uploads/avatars" ]} ∅ [].

(** A deployment whose upload directory does not mention [avatars]. *)
Definition pictures_settings : Settings :=
  mkSettings "sqlite:///users.db" "uploads/pictures" 1024 "http://127.0.0.1:5005".

(** That deployment with user 7, who has no avatar. *)
Definition world_pictures : World :=
  mkWorld ∅ {[ "uploads/pictures" ]} (<[7%Z := mkUser "alice" None]> ∅) [].

(** User 7 holds the path of an earlier upload, and the file is gone. *)
Definition world_dangling : World :=
  mkWorld ∅ {[ "uploads/avatars"; "uploads/avatars/7" ]}
          (<[7%Z := mkUser "alice" (Some (avatar_rel env_other_draw 7 "png"))]> ∅) [].

End MoreSamples.

(* ===================================================================== *)
(** * The code at work on the sample deployment                          *)
(* ===================================================================== *)

Example replace_avatars_ex :
  str_replace "avatars" "" "uploads/avatars" = "uploads/" /\
  str_replace "avatars" "" "avatars/my-avatars/avatars" = "/my-/" /\
  str_replace "avatars" "" "avaavatarstars/avatars" = "avatars/" /\
  str_replace "\" "/" "avatars\7\x.png" = "avatars/7/x.png".
Proof. repeat split. Qed.

Example str_int_ex : (str_int 7, str_int 0, str_int (-12)) = ("7", "0", "-12").
Proof. reflexivity. Qed.

Example os_path_join_ex :
  os_path_join Posix "uploads/" "avatars/7/x.png" = "uploads/avatars/7/x.png" /\
  os_path_join Posix "uploads/" "/etc/passwd" = "/etc/passwd" /\
  os_path_join3 Windows "avatars" "7" "x.png" = "avatars\7\x.png".
Proof. repeat split. Qed.

Example has_drive_ex :
  has_drive Windows "C:/uploads/" = true /\ has_drive Windows "//server/share" = true /\
  has_drive Windows "uploads/" = false /\ has_drive Windows "/etc/hosts" = false /\
  has_drive Posix "C:/uploads/" = false.
Proof. repeat split. Qed.

Example key_in_range_ex :
  Session.key_in_range 7 = true /\ Session.key_in_range (2 ^ 63 - 1) = true /\
  Session.key_in_range (2 ^ 63) = false /\ Session.key_in_range (- 2 ^ 63 - 1) = false.
Proof. repeat split. Qed.

Example str_uuid_ex :
  str_uuid (uuid4_int 0) = "00000000-0000-4000-8000-000000000000" /\
  str_uuid (uuid4_int (2 ^ 128 - 1)) = "ffffffff-ffff-4fff-bfff-ffffffffffff".
Proof. split; vm_compute; reflexivity. Qed.

(** Replacing the avatar of user 7: the response, and the effects in their
    order. *)
Example replace_run_ex :
  let run := Api.upload_user_avatar Sample.settings Posix Sample.env 7
               (Sample.upload Sample.png) Sample.world_with_avatar in
  fst run =
    inr (Api.mkUploadResponse Api.AvatarUploaded 7
           (Some "avatars/7/00000000-0000-4000-8000-000000000000.png")
           "http://127.0.0.1:5005/static/avatars/7/00000000-0000-4000-8000-000000000000.png") /\
  trace (snd run) =
    [EvMakedirs "uploads/avatars/7";
     EvWrite "uploads/avatars/7/00000000-0000-4000-8000-000000000000.png" Sample.png;
     EvRemove "uploads/avatars/7/11111111-1111-4111-8111-111111111111.jpg";
     EvCommit 7 (Some "avatars/7/00000000-0000-4000-8000-000000000000.png")].
Proof. split; vm_compute; reflexivity. Qed.

(** A first upload on Windows: backslashes in the paths on the disk, slashes
    in the relative path of the row, and the file is found again through the
    relative path. *)
Example first_upload_windows_ex :
  let run := Api.upload_user_avatar Sample.settings Windows Sample.env 7
               (Sample.upload Sample.png) Sample.world in
  trace (snd run) =
    [EvMakedirs "uploads/avatars\7";
     EvWrite "uploads/avatars\7\00000000-0000-4000-8000-000000000000.png" Sample.png;
     EvCommit 7 (Some "avatars/7/00000000-0000-4000-8000-000000000000.png")] /\
  Storage.delete_avatar Sample.settings Windows Sample.env
    "avatars/7/00000000-0000-4000-8000-000000000000.png" (snd run) =
    (inr tt, removed Windows "uploads/avatars/7/00000000-0000-4000-8000-000000000000.png"
               (snd run)).
Proof. split; vm_compute; reflexivity. Qed.

(* ===================================================================== *)
(** * Facts about the string and path primitives                         *)
(* ===================================================================== *)

Module PyStrFacts.

Lemma str_app_cons c s t : String c s +:+ t = String c (s +:+ t).
Proof. reflexivity. Qed.

Lemma str_app_nil_l s : "" +:+ s = s.
Proof. reflexivity. Qed.

Lemma str_app_nil_r s : s +:+ "" = s.
Proof. induction s as [|c s IH]; [reflexivity|]. by rewrite str_app_cons, IH. Qed.

Lemma str_app_assoc s t u : (s +:+ t) +:+ u = s +:+ t +:+ u.
Proof. induction s as [|c s IH]; [reflexivity|]. by rewrite !str_app_cons, IH. Qed.

Lemma str_app_nonempty s c t : s +:+ String c t ≠ "".
Proof. destruct s; discriminate. Qed.

Lemma all_chars_app f s t :
  all_chars f (s +:+ t) = all_chars f s && all_chars f t.
Proof.
  induction s as [|c s IH]; [reflexivity|].
  rewrite str_app_cons. simpl. by rewrite IH, andb_assoc.
Qed.

Lemma all_chars_impl (f g : ascii -> bool) s :
  (forall c, f c = true -> g c = true) ->
  all_chars f s = true -> all_chars g s = true.
Proof.
  intros Hfg. induction s as [|c s IH]; [done|]. simpl.
  intros [Hc Hs]%andb_true_iff. by rewrite (Hfg c Hc), IH.
Qed.

Lemma prefix_nil s : String.prefix "" s = true.
Proof. by destruct s. Qed.

(** An occurrence of [old] cannot reach over a character that [old] does not
    contain. *)
Lemma prefix_app_stop old s c t :
  all_chars (fun x => negb (Ascii.eqb x c)) old = true ->
  String.prefix old (s +:+ String c t) = true ->
  String.prefix old s = true.
Proof.
  revert s. induction old as [|a old IH]; intros s Hc Hp.
  - apply prefix_nil.
  - simpl in Hc. apply andb_true_iff in Hc as [Ha Hc].
    destruct s as [|b s].
    + rewrite str_app_nil_l in Hp. simpl in Hp.
      destruct (ascii_dec a c) as [->|]; [|discriminate].
      by rewrite Ascii.eqb_refl in Ha.
    + rewrite str_app_cons in Hp. simpl in Hp |- *.
      destruct (ascii_dec a b); [|discriminate]. by apply IH.
Qed.

Lemma prefix_app s t : String.prefix s (s +:+ t) = true.
Proof.
  induction s as [|c s IH]; [apply prefix_nil|].
  rewrite str_app_cons. simpl. by destruct (ascii_dec c c).
Qed.

Lemma str_replace_cons old new c s :
  str_replace old new (String c s) =
  if String.prefix old (String c s)
  then new +:+ str_replace_from old new (String.length old - 1) s
  else String c (str_replace old new s).
Proof. reflexivity. Qed.

(** A part of the string without any occurrence of [old], closed by a
    character foreign to [old], is copied unchanged. *)
Lemma str_replace_keep old new r c t :
  all_chars (fun x => negb (Ascii.eqb x c)) old = true ->
  str_contains old r = false ->
  str_replace old new (r +:+ String c t) = r +:+ str_replace old new (String c t).
Proof.
  intros Hc. induction r as [|b r IH]; intros Hr; [reflexivity|].
  simpl in Hr. apply orb_false_iff in Hr as [Hp Hr].
  rewrite !str_app_cons, str_replace_cons.
  destruct (String.prefix old (String b (r +:+ String c t))) eqn:E.
  - rewrite <- str_app_cons in E. apply prefix_app_stop in E; [|done].
    simpl in Hp, E. congruence.
  - by rewrite IH.
Qed.

(** The root [delete_avatar] computes for an upload directory
    [<root>/avatars]. *)
Lemma str_replace_avatars_root root :
  str_contains "avatars" root = false ->
  str_replace "avatars" "" (root +:+ "/avatars") = root +:+ "/".
Proof. intros H. by rewrite (str_replace_keep _ _ _ "/"%char). Qed.

Lemma str_replace_char_cons a new c s :
  str_replace (String a "") new (String c s) =
  if Ascii.eqb a c then new +:+ str_replace (String a "") new s
  else String c (str_replace (String a "") new s).
Proof.
  rewrite str_replace_cons. simpl.
  destruct (ascii_dec a c) as [->|Hne].
  - by rewrite prefix_nil, Ascii.eqb_refl.
  - by apply Ascii.eqb_neq in Hne as ->.
Qed.

Lemma str_replace_char_app a new s t :
  str_replace (String a "") new (s +:+ t) =
  str_replace (String a "") new s +:+ str_replace (String a "") new t.
Proof.
  induction s as [|c s IH]; [reflexivity|].
  rewrite str_app_cons, !str_replace_char_cons, IH.
  destruct (Ascii.eqb a c); [by rewrite str_app_assoc | by rewrite str_app_cons].
Qed.

Lemma str_replace_char_id a new s :
  all_chars (fun x => negb (Ascii.eqb x a)) s = true ->
  str_replace (String a "") new s = s.
Proof.
  induction s as [|c s IH]; [done|]. simpl.
  intros [Hc Hs]%andb_true_iff. rewrite str_replace_char_cons, IH by done.
  rewrite Ascii.eqb_sym. by apply negb_true_iff in Hc as ->.
Qed.

(** ** Characters of [str(int)] and [str(uuid)] *)

Lemma int_char_name c : int_char c = true -> name_char c = true.
Proof. destruct c as [[] [] [] [] [] [] [] []]; by vm_compute. Qed.

Lemma uuid_char_name c : uuid_char c = true -> name_char c = true.
Proof. destruct c as [[] [] [] [] [] [] [] []]; by vm_compute. Qed.

Lemma name_char_not_sep os c : name_char c = true -> is_sep os c = false.
Proof.
  unfold name_char. intros [H1 H2]%andb_true_iff.
  apply negb_true_iff in H1, H2. destruct os; simpl; by rewrite ?H1, ?H2.
Qed.

Lemma name_char_not_backslash c :
  name_char c = true -> negb (Ascii.eqb c "\") = true.
Proof. unfold name_char. by intros [_ ?]%andb_true_iff. Qed.

Lemma name_char_not_slash c :
  name_char c = true -> Ascii.eqb c "/" = false.
Proof. unfold name_char. by intros [?%negb_true_iff _]%andb_true_iff. Qed.

Lemma string_of_uint_chars d :
  all_chars int_char (NilEmpty.string_of_uint d) = true.
Proof. induction d; simpl; by rewrite ?IHd. Qed.

Lemma str_int_chars n : all_chars int_char (str_int n) = true.
Proof.
  unfold str_int, NilZero.string_of_int, NilZero.string_of_uint.
  destruct (Z.to_int n) as [d|d]; destruct d; try reflexivity;
    simpl; by rewrite ?string_of_uint_chars.
Qed.

Lemma str_int_cons n : exists c s, str_int n = String c s.
Proof.
  unfold str_int, NilZero.string_of_int, NilZero.string_of_uint.
  destruct (Z.to_int n) as [d|d]; destruct d; simpl; eauto.
Qed.

Lemma hex_digit_char n : uuid_char (hex_digit n) = true.
Proof.
  unfold hex_digit. generalize (N.to_nat n). intros m.
  do 16 (destruct m as [|m]; [reflexivity|]). reflexivity.
Qed.

Lemma hex_fixed_chars w n : all_chars uuid_char (hex_fixed w n) = true.
Proof. induction w as [|w IH]; [done|]. simpl. by rewrite hex_digit_char, IH. Qed.

Lemma all_chars_substring f n m s :
  all_chars f s = true -> all_chars f (String.substring n m s) = true.
Proof.
  revert n m. induction s as [|c s IH]; intros n m H.
  - by destruct n, m.
  - simpl in H. apply andb_true_iff in H as [Hc Hs].
    destruct n as [|n]; [destruct m as [|m]|]; simpl; [done| |by apply IH].
    by rewrite Hc, IH.
Qed.

Lemma str_uuid_chars u : all_chars uuid_char (str_uuid u) = true.
Proof.
  unfold str_uuid.
  rewrite !all_chars_app, !all_chars_substring by apply hex_fixed_chars.
  reflexivity.
Qed.

Lemma str_uuid_cons u : exists c s, str_uuid u = String c s.
Proof.
  unfold str_uuid.
  change (hex_fixed 32 u) with
    (String (hex_digit (N.land (N.shiftr u (4 * N.of_nat 31)) 15)) (hex_fixed 31 u)).
  simpl String.substring at 1. rewrite str_app_cons. eauto.
Qed.

End PyStrFacts.

Module PathFacts.

Import PyStrFacts.

Lemma starts_with_sep_name os s :
  all_chars name_char s = true -> starts_with_sep os s = false.
Proof.
  destruct s as [|c s]; [done|]. simpl.
  intros [Hc _]%andb_true_iff. by apply name_char_not_sep.
Qed.

Lemma starts_with_sep_app os c s t :
  starts_with_sep os (String c s +:+ t) = is_sep os c.
Proof. reflexivity. Qed.

Lemma ends_with_sep_cons os c d s :
  ends_with_sep os (String c (String d s)) = ends_with_sep os (String d s).
Proof. reflexivity. Qed.

Lemma ends_with_sep_app os a c s :
  ends_with_sep os (a +:+ String c s) = ends_with_sep os (String c s).
Proof.
  induction a as [|x a IH]; [reflexivity|].
  rewrite str_app_cons. destruct a as [|y a].
  - rewrite str_app_nil_l. apply ends_with_sep_cons.
  - rewrite str_app_cons in *. by rewrite ends_with_sep_cons.
Qed.

Lemma ends_with_sep_name os s :
  all_chars name_char s = true -> ends_with_sep os s = false.
Proof.
  induction s as [|c s IH]; [done|]. simpl all_chars.
  intros [Hc Hs]%andb_true_iff. destruct s as [|d s].
  - simpl. by apply name_char_not_sep.
  - rewrite ends_with_sep_cons. by apply IH.
Qed.

(** Joining a component that is a plain name. *)
Lemma os_path_join_name os a b :
  all_chars name_char b = true ->
  os_path_join os a b =
  if String.eqb a "" || ends_with_sep os a then a +:+ b else a +:+ os_sep os +:+ b.
Proof. intros Hb. unfold os_path_join. by rewrite starts_with_sep_name. Qed.

Lemma os_path_join_after_name os a c s b :
  all_chars name_char (String c s) = true ->
  all_chars name_char b = true ->
  os_path_join os (a +:+ String c s) b = (a +:+ String c s) +:+ os_sep os +:+ b.
Proof.
  intros Hn Hb. rewrite os_path_join_name by done.
  rewrite ends_with_sep_app, (ends_with_sep_name _ _ Hn), orb_false_r.
  destruct (String.eqb_spec (a +:+ String c s) "") as [E|_]; [|done].
  by destruct a.
Qed.

Lemma os_sep_replace os : str_replace "\" "/" (os_sep os) = "/".
Proof. by destruct os. Qed.

Lemma str_replace_name s :
  all_chars name_char s = true -> str_replace "\" "/" s = s.
Proof.
  intros H. apply str_replace_char_id.
  revert H. apply all_chars_impl, name_char_not_backslash.
Qed.

(** The relative path [upload_avatar] returns, on either system. *)
Lemma relative_path_shape os u f :
  all_chars name_char u = true -> (exists c s, u = String c s) ->
  all_chars name_char f = true ->
  str_replace "\" "/" (os_path_join3 os "avatars" u f) =
  "avatars/" +:+ u +:+ "/" +:+ f.
Proof.
  intros Hu (c & s & ->) Hf. unfold os_path_join3.
  rewrite (os_path_join_name os "avatars" (String c s)) by done.
  replace (String.eqb "avatars" "" || ends_with_sep os "avatars") with false
    by (by destruct os).
  rewrite <- (str_app_assoc "avatars" (os_sep os)).
  rewrite os_path_join_after_name by done.
  rewrite !str_replace_char_app, os_sep_replace.
  rewrite !str_replace_name by done.
  by rewrite !str_app_assoc.
Qed.

End PathFacts.

(* ===================================================================== *)
(** * Facts about [LocalAvatarStorage]                                    *)
(* ===================================================================== *)

Module StorageFacts.

Import PyStrFacts PathFacts Storage.

Lemma allowed_cases m :
  m ∈ allowed_mime_types ->
  m = "image/jpeg" \/ m = "image/png" \/ m = "image/gif" \/ m = "image/jpg".
Proof. unfold allowed_mime_types. rewrite !elem_of_union, !elem_of_singleton. tauto. Qed.

Lemma allowed_ext m :
  m ∈ allowed_mime_types ->
  exists ext, mime_to_ext !! m = Some ext /\ (ext = "jpg" \/ ext = "png" \/ ext = "gif").
Proof.
  intros [-> | [-> | [-> | ->]]]%allowed_cases; eexists;
    (split; [vm_compute; reflexivity | tauto]).
Qed.

Lemma ext_name_chars ext :
  ext = "jpg" \/ ext = "png" \/ ext = "gif" -> all_chars name_char ext = true.
Proof. by intros [-> | [-> | ->]]. Qed.

Lemma str_int_name n : all_chars name_char (str_int n) = true.
Proof. eapply all_chars_impl; [apply int_char_name | apply str_int_chars]. Qed.

Lemma str_uuid_name u : all_chars name_char (str_uuid u) = true.
Proof. eapply all_chars_impl; [apply uuid_char_name | apply str_uuid_chars]. Qed.

Lemma file_name_chars env ext :
  all_chars name_char ext = true -> all_chars name_char (file_name env ext) = true.
Proof.
  intros H. unfold file_name. by rewrite !all_chars_app, str_uuid_name, H.
Qed.

Section WithSettings.

Variable settings : Settings.
Variable os : host_os.
Variable env : Env.

Local Abbreviation _validate_file := (_validate_file settings env).
Local Abbreviation upload_avatar := (upload_avatar settings os env).
Local Abbreviation delete_avatar := (delete_avatar settings os env).
Local Abbreviation abs_path := (abs_path settings os).
Local Abbreviation file_path := (file_path settings os env).
Local Abbreviation user_dir := (user_dir settings os).

(** ** [_validate_file] *)

Lemma validate_state content w : snd (_validate_file content w) = w.
Proof.
  unfold Storage._validate_file, bind, raise, ret.
  destruct (_ >? _)%Z; [done|].
  destruct (magic_from_buffer env content); [done|].
  by destruct (bool_decide _).
Qed.

Lemma validate_too_large content w :
  (Z.of_nat (length content) > MAX_AVATAR_SIZE settings)%Z ->
  _validate_file content w =
  (inl (HTTPException 400 (FileTooLarge (MAX_AVATAR_SIZE settings))), w).
Proof.
  intros H. unfold Storage._validate_file.
  by apply Z.gtb_gt in H as ->.
Qed.

Lemma validate_sniff_failed content msg w :
  (Z.of_nat (length content) <= MAX_AVATAR_SIZE settings)%Z ->
  magic_from_buffer env content = inl msg ->
  _validate_file content w = (inl (HTTPException 400 (SniffFailed (PyException msg))), w).
Proof.
  intros Hle Hm. unfold Storage._validate_file, bind, raise.
  destruct (Z.gtb_spec (Z.of_nat (length content)) (MAX_AVATAR_SIZE settings)); [lia|].
  by rewrite Hm.
Qed.

Lemma validate_unsupported content m w :
  (Z.of_nat (length content) <= MAX_AVATAR_SIZE settings)%Z ->
  magic_from_buffer env content = inr m ->
  m ∉ allowed_mime_types ->
  _validate_file content w = (inl (HTTPException 400 (UnsupportedType m)), w).
Proof.
  intros Hle Hm Hn. unfold Storage._validate_file, bind, raise, ret.
  destruct (Z.gtb_spec (Z.of_nat (length content)) (MAX_AVATAR_SIZE settings)); [lia|].
  rewrite Hm. by rewrite bool_decide_eq_false_2.
Qed.

Lemma validate_ok content m w :
  (Z.of_nat (length content) <= MAX_AVATAR_SIZE settings)%Z ->
  magic_from_buffer env content = inr m ->
  m ∈ allowed_mime_types ->
  _validate_file content w = (inr m, w).
Proof.
  intros Hle Hm Hn. unfold Storage._validate_file, bind, raise, ret.
  destruct (Z.gtb_spec (Z.of_nat (length content)) (MAX_AVATAR_SIZE settings)); [lia|].
  rewrite Hm. by rewrite bool_decide_eq_true_2.
Qed.

Lemma validate_ok_inv content m w w' :
  _validate_file content w = (inr m, w') ->
  w' = w /\ (Z.of_nat (length content) <= MAX_AVATAR_SIZE settings)%Z /\
  magic_from_buffer env content = inr m /\ m ∈ allowed_mime_types.
Proof.
  unfold Storage._validate_file, bind, raise, ret.
  destruct (Z.gtb_spec (Z.of_nat (length content)) (MAX_AVATAR_SIZE settings)); [done|].
  destruct (magic_from_buffer env content) as [e|m0]; [done|].
  destruct (bool_decide (m0 ∈ allowed_mime_types)) eqn:E; [|done].
  apply bool_decide_eq_true_1 in E. intros [= -> ->]. repeat split; [lia|done].
Qed.

(** ** [upload_avatar] *)

(** Nothing is touched when the validation raises. *)
Lemma upload_avatar_invalid user_id content e w :
  _validate_file content w = (inl e, w) ->
  upload_avatar user_id content w = (inl e, w).
Proof. intros H. unfold Storage.upload_avatar, bind. by rewrite H. Qed.

(** The path returned for a file of extension [ext]. *)
Lemma returned_path user_id ext :
  ext = "jpg" \/ ext = "png" \/ ext = "gif" ->
  str_replace "\" "/" (os_path_join3 os "avatars" (str_int user_id) (file_name env ext))
  = avatar_rel env user_id ext.
Proof.
  intros Hext. apply relative_path_shape.
  - apply str_int_name.
  - apply str_int_cons.
  - by apply file_name_chars, ext_name_chars.
Qed.

(** A successful upload, read backwards. *)
Lemma upload_avatar_ok_inv user_id content p w w' :
  upload_avatar user_id content w = (inr p, w') ->
  exists m ext,
    (Z.of_nat (length content) <= MAX_AVATAR_SIZE settings)%Z /\
    magic_from_buffer env content = inr m /\ m ∈ allowed_mime_types /\
    mime_to_ext !! m = Some ext /\
    (ext = "jpg" \/ ext = "png" \/ ext = "gif") /\
    p = avatar_rel env user_id ext /\
    Os.is_file os (user_dir user_id) w = false /\
    makedirs_error env (user_dir user_id) = None /\
    open_error env (file_path user_id ext) = None /\
    (Os.fs_key os (file_path user_id ext) ∉ dirs w') /\
    w' = uploaded settings os env user_id ext content w.
Proof.
  unfold Storage.upload_avatar, bind.
  destruct (_validate_file content w) as [[e|m] w1] eqn:Hv; [done|].
  apply validate_ok_inv in Hv as (-> & Hle & Hm & Hin).
  destruct (allowed_ext m Hin) as (ext & Hext & Hcases). rewrite Hext. simpl default.
  unfold Os.makedirs.
  destruct (Os.is_file os (user_dir user_id) w) eqn:Hf; [done|].
  destruct (makedirs_error env (user_dir user_id)) eqn:Hmk; [done|].
  unfold try_except, Os.write_file, raise, ret.
  match goal with
  | |- context [Os.is_dir os ?p ?w0] => destruct (Os.is_dir os p w0) eqn:Hd
  end; [done|].
  destruct (open_error env (file_path user_id ext)) eqn:Hop; [done|].
  destruct (write_error env (file_path user_id ext)) as [[msg n]|]; [done|].
  rewrite returned_path by done. intros [= <- <-].
  exists m, ext. repeat split; try done.
  - by apply bool_decide_eq_false_1 in Hd.
  - unfold uploaded. by rewrite <- List.app_assoc.
Qed.

Lemma validate_err_inv content e w w' :
  _validate_file content w = (inl e, w') ->
  w' = w /\ exists d, e = HTTPException 400 d /\
    (d = FileTooLarge (MAX_AVATAR_SIZE settings) \/ (exists x, d = SniffFailed x) \/
     exists m, d = UnsupportedType m).
Proof.
  unfold Storage._validate_file, bind, raise, ret.
  destruct (_ >? _)%Z; [intros [= <- <-]; eauto 6|].
  destruct (magic_from_buffer env content) as [msg|m]; [intros [= <- <-]; eauto 7|].
  destruct (bool_decide _); [done|]. intros [= <- <-]; eauto 7.
Qed.

(** A failed upload, read backwards: the validation raised and nothing
    changed, or the directory could not be made and nothing changed, or the
    file could not be written after the directory was made. *)
Lemma upload_avatar_err_inv user_id content e w w' :
  upload_avatar user_id content w = (inl e, w') ->
  (_validate_file content w = (inl e, w) /\ w' = w) \/
  (exists msg, e = PyException msg /\ w' = w) \/
  (exists e0, e = HTTPException 500 (WriteFailed e0) /\ users w' = users w).
Proof.
  unfold Storage.upload_avatar, bind.
  destruct (_validate_file content w) as [[ev|m] wv] eqn:Hv.
  { destruct (validate_err_inv _ _ _ _ Hv) as [-> _]. intros [= <- <-]. by left. }
  apply validate_ok_inv in Hv as (-> & _). unfold Os.makedirs.
  destruct (Os.is_file os (user_dir user_id) w); [intros [= <- <-]; eauto|].
  destruct (makedirs_error env (user_dir user_id)); [intros [= <- <-]; eauto|].
  unfold try_except, Os.write_file, raise.
  destruct (Os.is_dir os _ _); [intros [= <- <-]; right; eauto|].
  destruct (open_error env _); [intros [= <- <-]; right; eauto|].
  destruct (write_error env _) as [[msg n]|]; [intros [= <- <-]; right; eauto|]. done.
Qed.

(** ** The two paths of one avatar *)

Lemma file_path_plain user_id ext :
  UPLOAD_DIR settings <> "" ->
  ends_with_sep os (UPLOAD_DIR settings) = false ->
  ext = "jpg" \/ ext = "png" \/ ext = "gif" ->
  file_path user_id ext =
  ((UPLOAD_DIR settings +:+ os_sep os) +:+ str_int user_id) +:+ os_sep os +:+ file_name env ext.
Proof.
  intros Hne Hend Hext. unfold Storage.file_path, Storage.user_dir.
  rewrite (os_path_join_name os (UPLOAD_DIR settings)) by apply str_int_name.
  rewrite Hend, orb_false_r.
  destruct (String.eqb_spec (UPLOAD_DIR settings) "") as [E|_]; [done|].
  rewrite <- str_app_assoc.
  destruct (str_int_cons user_id) as (c & s & E).
  pose proof (str_int_name user_id) as Hn. rewrite E in Hn |- *.
  apply os_path_join_after_name; [done|].
  by apply file_name_chars, ext_name_chars.
Qed.

Lemma abs_path_layout root rel c s :
  avatars_layout settings root ->
  rel = String c s -> is_sep os c = false ->
  abs_path rel = (root +:+ "/") +:+ rel.
Proof.
  intros [Hdir Hroot] -> Hc. unfold Storage.abs_path.
  rewrite Hdir, str_replace_avatars_root by done.
  unfold os_path_join. simpl starts_with_sep. rewrite Hc.
  rewrite ends_with_sep_app.
  replace (ends_with_sep os "/") with true by (by destruct os).
  by rewrite orb_true_r.
Qed.

Lemma normsep_app s t : Os.normsep (s +:+ t) = Os.normsep s +:+ Os.normsep t.
Proof.
  induction s as [|c s IH]; [reflexivity|].
  rewrite str_app_cons. simpl. by rewrite IH.
Qed.

(** With the layout [<root>/avatars], [delete_avatar] looks for the avatar
    where [upload_avatar] wrote it. *)
Lemma abs_path_of_upload root user_id ext :
  avatars_layout settings root ->
  ext = "jpg" \/ ext = "png" \/ ext = "gif" ->
  Os.fs_key os (abs_path (avatar_rel env user_id ext)) =
  Os.fs_key os (file_path user_id ext).
Proof.
  intros Hlay Hext.
  rewrite (abs_path_layout root _ "a"%char
             ("vatars/" +:+ str_int user_id +:+ "/" +:+ file_name env ext) Hlay)
    by (reflexivity || by destruct os).
  destruct Hlay as [Hdir _].
  rewrite file_path_plain; [|rewrite Hdir; apply str_app_nonempty| |done].
  2: { rewrite Hdir, ends_with_sep_app. by destruct os. }
  rewrite Hdir. unfold avatar_rel. destruct os; simpl Os.fs_key.
  - rewrite !str_app_assoc. reflexivity.
  - rewrite !normsep_app, !str_app_assoc. reflexivity.
Qed.

(** ** [delete_avatar] *)

Lemma delete_avatar_missing rel w :
  Os.path_exists os (abs_path rel) w = false ->
  delete_avatar rel w = (inl (HTTPException 404 AvatarFileMissing), w).
Proof. intros H. unfold Storage.delete_avatar. by rewrite H. Qed.

Lemma delete_avatar_ok rel w :
  Os.is_file os (abs_path rel) w = true ->
  Os.is_dir os (abs_path rel) w = false ->
  remove_error env (abs_path rel) = None ->
  delete_avatar rel w = (inr tt, removed os (abs_path rel) w).
Proof.
  intros Hf Hd He. unfold Storage.delete_avatar, Os.path_exists, try_except, Os.remove.
  by rewrite Hf, Hd, He.
Qed.

Lemma delete_avatar_remove_fails rel msg w :
  Os.is_file os (abs_path rel) w = true ->
  Os.is_dir os (abs_path rel) w = false ->
  remove_error env (abs_path rel) = Some msg ->
  delete_avatar rel w = (inl (HTTPException 500 (DeleteFailed (PyException msg))), w).
Proof.
  intros Hf Hd He. unfold Storage.delete_avatar, Os.path_exists, try_except, Os.remove.
  by rewrite Hf, Hd, He.
Qed.

Lemma delete_avatar_of_remove rel w w' :
  Os.remove env os (abs_path rel) w = (inr tt, w') ->
  delete_avatar rel w = (inr tt, w').
Proof.
  intros Hr. unfold Storage.delete_avatar, try_except, Os.path_exists.
  rewrite Hr. revert Hr. unfold Os.remove.
  destruct (Os.is_dir os _ w); [done|].
  by destruct (Os.is_file os _ w).
Qed.

Lemma delete_avatar_ok_inv rel w w' :
  delete_avatar rel w = (inr tt, w') ->
  Os.is_file os (abs_path rel) w = true /\ w' = removed os (abs_path rel) w.
Proof.
  unfold Storage.delete_avatar, Os.path_exists, try_except, Os.remove, raise.
  destruct (Os.is_file os (abs_path rel) w) eqn:Hf;
    destruct (Os.is_dir os (abs_path rel) w) eqn:Hd; simpl; try done.
  destruct (remove_error env (abs_path rel)); [done|]. by intros [= <-].
Qed.

Lemma delete_avatar_err_inv rel e w w' :
  delete_avatar rel w = (inl e, w') ->
  w' = w /\
  ((Os.path_exists os (abs_path rel) w = false /\ e = HTTPException 404 AvatarFileMissing) \/
   (Os.path_exists os (abs_path rel) w = true /\ exists e0, e = HTTPException 500 (DeleteFailed e0))).
Proof.
  unfold Storage.delete_avatar, try_except, Os.remove, raise.
  destruct (Os.path_exists os (abs_path rel) w) eqn:Hx.
  - destruct (Os.is_dir os (abs_path rel) w); [intros [= <- <-]; eauto|].
    destruct (negb _); [intros [= <- <-]; eauto|].
    destruct (remove_error env (abs_path rel)); [|done]. intros [= <- <-]; eauto.
  - intros [= <- <-]. auto.
Qed.

End WithSettings.

End StorageFacts.

(* ===================================================================== *)
(** * Facts about the endpoints                                           *)
(* ===================================================================== *)

Module ApiFacts.

Import StorageFacts.

Section WithSettings.

Variable settings : Settings.
Variable os : host_os.
Variable env : Env.

Lemma delete_old_avatar_ok_inv user w w' :
  Api.delete_old_avatar settings os env user w = (inr tt, w') ->
  trace w' = (trace w ++ old_avatar_removal settings os user)%list /\
  users w' = users w /\ dirs w' = dirs w /\
  files w' = match avatar_path user with
             | Some (String _ _ as old_path) =>
                 delete (Os.fs_key os (Storage.abs_path settings os old_path)) (files w)
             | _ => files w
             end.
Proof.
  unfold Api.delete_old_avatar, old_avatar_removal.
  destruct (avatar_path user) as [[|c old]|].
  - intros [= <-]. by rewrite app_nil_r.
  - intros [_ ->]%delete_avatar_ok_inv. done.
  - intros [= <-]. by rewrite app_nil_r.
Qed.

Lemma delete_old_avatar_err_inv user e w w' :
  Api.delete_old_avatar settings os env user w = (inl e, w') ->
  w' = w /\ exists c old, avatar_path user = Some (String c old) /\
    Storage.delete_avatar settings os env (String c old) w = (inl e, w).
Proof.
  unfold Api.delete_old_avatar.
  destruct (avatar_path user) as [[|c old]|]; try done.
  intros H. destruct (delete_avatar_err_inv _ _ _ _ _ _ _ H) as [-> _]. eauto.
Qed.

Lemma persist_ok_inv user_id user path u w w' :
  Api.persist_avatar_path env user_id user path w = (inr u, w') ->
  commit_error env = None /\ refresh_error env = None /\
  u = with_avatar user path /\ w' = committed user_id (with_avatar user path) w.
Proof.
  unfold Api.persist_avatar_path, bind, Session.commit, Session.refresh.
  destruct (commit_error env); [done|].
  destruct (refresh_error env); [done|].
  simpl users. rewrite lookup_insert_eq. by intros [= <- <-].
Qed.

Lemma persist_err_inv user_id user path e w w' :
  Api.persist_avatar_path env user_id user path w = (inl e, w') ->
  exists msg, e = PyException msg /\
  ((commit_error env = Some msg /\ w' = w) \/
   (commit_error env = None /\ refresh_error env = Some msg /\
    w' = committed user_id (with_avatar user path) w)).
Proof.
  unfold Api.persist_avatar_path, bind, Session.commit, Session.refresh.
  destruct (commit_error env) as [msg|]; [intros [= <- <-]; exists msg; auto|].
  destruct (refresh_error env) as [msg|]; [intros [= <- <-]; exists msg; auto|].
  simpl users. by rewrite lookup_insert_eq.
Qed.

End WithSettings.

End ApiFacts.

(* ===================================================================== *)
(** * The properties of the specification                                *)
(* ===================================================================== *)

Import PyStrFacts PathFacts StorageFacts ApiFacts.

Lemma text_plain_not_allowed : "text/plain" ∉ Storage.allowed_mime_types.
Proof. by intros [H | [H | [H | H]]]%allowed_cases. Qed.

(** The steps named in a statement are the steps the run took: identify
    them through the equations [Hup], [Hold] and [Hper] of the run, leaving
    the outcome of the persistence step as [H]. *)
Local Ltac same_steps Hup Hold Hper H :=
  let H1 := fresh in
  let H2 := fresh in
  intros ? ? ? ? ? ? ? [= <-] [= <-] H1 H2 H;
  rewrite Hup in H1; injection H1 as <- <-;
  rewrite Hold in H2; injection H2 as <-;
  rewrite Hper in H.

(** C1, as the code has it.  [upload_user_avatar] follows the replace
    protocol.  A run that returns a response has made its effects in this
    order: the user directory and the new file are written, then the old
    file is removed if the row had an avatar path, then the row is committed
    with the new path; afterwards the old file is gone, the row points to
    the new path, and the new file is on the disk (when the old path does
    not name that same file).  A run that surfaces the persistence error
    (HTTP 500) has, as its last effect, removed the file at the new path,
    after the commit or the refresh raised; with the layout [<root>/avatars]
    that file is the one just written.  When the commit or the refresh
    raises, the compensation is [delete_avatar] on the new path, and the
    outcome is the outcome of that call: when it returns, the file at the
    new path is removed and the persistence error is surfaced; when it
    raises, for a file it does not find (404) or cannot remove (500), its
    exception is surfaced in place of the persistence error and nothing is
    removed.  With the layout [<root>/avatars] and an old path that does not
    name the new file, the new file is found, and only a failing [os.remove]
    keeps the persistence error from the caller. *)
Theorem coordinated_replace_protocol settings os env user_id file w r w' :
  Api.upload_user_avatar settings os env user_id file w = (r, w') ->
  (forall resp, r = inr resp ->
     exists user content ext,
       users w !! user_id = Some user /\ Api.file_read file = inr content /\
       Api.up_avatar_path resp = Some (avatar_rel env user_id ext) /\
       trace w' = (trace w ++
         [EvMakedirs (Storage.user_dir settings os user_id);
          EvWrite (Storage.file_path settings os env user_id ext) content] ++
         old_avatar_removal settings os user ++
         [EvCommit user_id (Some (avatar_rel env user_id ext))])%list /\
       users w' !! user_id = Some (with_avatar user (avatar_rel env user_id ext)) /\
       (forall c old, avatar_path user = Some (String c old) ->
          Os.is_file os (Storage.abs_path settings os (String c old)) w' = false) /\
       ((forall c old, avatar_path user = Some (String c old) ->
           Os.fs_key os (Storage.abs_path settings os (String c old)) <>
           Os.fs_key os (Storage.file_path settings os env user_id ext)) ->
        files w' !! Os.fs_key os (Storage.file_path settings os env user_id ext)
          = Some content)) /\
  (forall e, r = inl (HTTPException 500 (UpdateUserFailed e)) ->
     exists user content ext msg persisted,
       users w !! user_id = Some user /\ Api.file_read file = inr content /\
       e = PyException msg /\
       ((commit_error env = Some msg /\ persisted = []) \/
        (commit_error env = None /\ refresh_error env = Some msg /\
         persisted = [EvCommit user_id (Some (avatar_rel env user_id ext))])) /\
       trace w' = (trace w ++
         [EvMakedirs (Storage.user_dir settings os user_id);
          EvWrite (Storage.file_path settings os env user_id ext) content] ++
         old_avatar_removal settings os user ++ persisted ++
         [EvRemove (Storage.abs_path settings os (avatar_rel env user_id ext))])%list /\
       Os.is_file os (Storage.abs_path settings os (avatar_rel env user_id ext)) w' = false /\
       (forall root, avatars_layout settings root ->
          files w' !! Os.fs_key os (Storage.file_path settings os env user_id ext) = None)) /\
  (forall user content new w1 w2 e w3,
     users w !! user_id = Some user -> Api.file_read file = inr content ->
     Storage.upload_avatar settings os env user_id content w = (inr new, w1) ->
     Api.delete_old_avatar settings os env user w1 = (inr tt, w2) ->
     Api.persist_avatar_path env user_id user new w2 = (inl e, w3) ->
     (forall w4,
        Storage.delete_avatar settings os env new w3 = (inr tt, w4) ->
        r = inl (HTTPException 500 (UpdateUserFailed e)) /\ w' = w4 /\
        w4 = removed os (Storage.abs_path settings os new) w3) /\
     (forall e4 w4,
        Storage.delete_avatar settings os env new w3 = (inl e4, w4) ->
        r = inl e4 /\ w' = w3 /\
        (e4 = HTTPException 404 AvatarFileMissing \/
         exists e0, e4 = HTTPException 500 (DeleteFailed e0))) /\
     (forall root,
        avatars_layout settings root ->
        (forall c old, avatar_path user = Some (String c old) ->
           Os.fs_key os (Storage.abs_path settings os (String c old)) <>
           Os.fs_key os (Storage.abs_path settings os new)) ->
        match remove_error env (Storage.abs_path settings os new) with
        | None =>
            r = inl (HTTPException 500 (UpdateUserFailed e)) /\
            w' = removed os (Storage.abs_path settings os new) w3
        | Some msg =>
            r = inl (HTTPException 500 (DeleteFailed (PyException msg))) /\ w' = w3
        end)).
Proof.
  unfold Api.upload_user_avatar, bind, Session.get.
  destruct (users w !! user_id) as [user|] eqn:Huser;
    [|intros [= <- <-]; split; [done|]; split; [done|]; intros; congruence].
  destruct (Api.file_read file) as [msg0|content] eqn:Hread;
    [intros [= <- <-]; split; [done|]; split; [done|]; intros; congruence|].
  unfold ret at 1.
  destruct (Storage.upload_avatar settings os env user_id content w)
    as [[e1|new] w1] eqn:Hup.
  { intros [= <- <-]. split; [done|]. split; [|intros; congruence].
    intros e [= ->]. exfalso.
    apply upload_avatar_err_inv in Hup as [[Hv _] | [(msg & [=] & _) | (e0 & [=] & _)]].
    by apply validate_err_inv in Hv as (_ & d & [=] & _). }
  pose proof Hup
    as (m & ext & _ & _ & _ & _ & Hext & -> & _ & _ & _ & Hnd & Hw1)%upload_avatar_ok_inv.
  destruct (Api.delete_old_avatar settings os env user w1) as [[e2|[]] w2] eqn:Hold.
  { intros [= <- <-]. split; [done|]. split; [|intros; congruence].
    intros e [= ->]. exfalso.
    apply delete_old_avatar_err_inv in Hold as (_ & c & old & _ & Hd).
    by apply delete_avatar_err_inv in Hd as (_ & [[_ [=]] | [_ [e0 [=]]]]). }
  pose proof Hold as (Ht2 & Hu2 & Hd2 & Hf2)%delete_old_avatar_ok_inv.
  unfold try_except.
  destruct (Api.persist_avatar_path env user_id user (avatar_rel env user_id ext) w2)
    as [[e3|u] w3] eqn:Hper.
  - pose proof Hper as (msg & -> & Hcases)%persist_err_inv.
    assert (files w3 = files w2 /\ dirs w3 = dirs w2) as [Hf3 Hd3]
      by (destruct Hcases as [[_ ->] | (_ & _ & ->)]; done).
    assert (forall root,
              avatars_layout settings root ->
              (forall c old, avatar_path user = Some (String c old) ->
                 Os.fs_key os (Storage.abs_path settings os (String c old)) <>
                 Os.fs_key os (Storage.abs_path settings os (avatar_rel env user_id ext))) ->
              Os.is_file os (Storage.abs_path settings os (avatar_rel env user_id ext)) w3
                = true /\
              Os.is_dir os (Storage.abs_path settings os (avatar_rel env user_id ext)) w3
                = false) as Hthere.
    { intros root Hlay Hne.
      pose proof (abs_path_of_upload settings os env root user_id ext Hlay Hext) as Hkey.
      unfold Os.is_file, Os.is_dir. rewrite Hf3, Hd3, Hd2, Hf2. split.
      - apply bool_decide_eq_true_2.
        destruct (avatar_path user) as [[|c old]|];
          rewrite ?lookup_delete_ne by (by apply Hne);
          rewrite Hkey, Hw1; simpl files; rewrite lookup_insert_eq; by eexists.
      - apply bool_decide_eq_false_2. by rewrite Hkey. }
    unfold raise.
    destruct (Storage.delete_avatar settings os env (avatar_rel env user_id ext) w3)
      as [[e4|[]] w4] eqn:Hdel.
    + intros [= <- <-]. split; [done|].
      pose proof Hdel as (-> & Hwhy)%delete_avatar_err_inv. split.
      * intros e [= ->]. exfalso. by destruct Hwhy as [[_ [=]] | [_ [e0 [=]]]].
      * same_steps Hup Hold Hper H3. injection H3 as <- <-.
        split; [intros; congruence|]. split.
        -- intros e5 w5 H5. rewrite Hdel in H5. injection H5 as <- <-.
           repeat split. destruct Hwhy as [[_ ->] | [_ [e0 ->]]]; eauto.
        -- intros root Hlay Hne. destruct (Hthere root Hlay Hne) as [Hfile Hdir].
           destruct (remove_error env _) as [msg1|] eqn:Herr.
           ++ rewrite (delete_avatar_remove_fails _ _ _ _ _ _ Hfile Hdir Herr) in Hdel.
              by injection Hdel as <-.
           ++ rewrite (delete_avatar_ok _ _ _ _ _ Hfile Hdir Herr) in Hdel. done.
    + intros [= <- <-]. split; [done|].
      pose proof Hdel as [Hfile Hw4]%delete_avatar_ok_inv. split.
      * subst w4. intros e [= <-]. exists user, content, ext, msg.
        exists (match commit_error env with
                | Some _ => []
                | None => [EvCommit user_id (Some (avatar_rel env user_id ext))]
                end).
        repeat split; try done.
        -- destruct Hcases as [[Hc _] | (Hc & Hr & _)]; rewrite Hc; auto.
        -- simpl trace.
           destruct Hcases as [[Hc ->] | (Hc & Hr & ->)]; rewrite Hc;
             simpl trace; rewrite Ht2, Hw1; simpl trace;
             rewrite <- ?List.app_assoc; reflexivity.
        -- unfold Os.is_file, removed. simpl files. rewrite lookup_delete_eq.
           by apply bool_decide_eq_false_2, is_Some_None.
        -- intros root Hlay. simpl files.
           rewrite <- (abs_path_of_upload settings os env root user_id ext Hlay Hext).
           apply lookup_delete_eq.
      * same_steps Hup Hold Hper H3. injection H3 as <- <-.
        split; [|split; [intros; congruence|]].
        -- intros w5 H5. rewrite Hdel in H5. by injection H5 as <-.
        -- intros root Hlay Hne. destruct (Hthere root Hlay Hne) as [_ Hdir].
           destruct (remove_error env _) as [msg1|] eqn:Herr; [|done].
           rewrite (delete_avatar_remove_fails _ _ _ _ _ _ Hfile Hdir Herr) in Hdel. done.
  - pose proof Hper as (Hc & Hr & -> & ->)%persist_ok_inv.
    unfold ret. intros [= <- <-]. split; [|split; [done|]].
    + intros resp [= <-]. exists user, content, ext.
      repeat split; try done.
      * simpl trace. rewrite Ht2, Hw1. simpl trace.
        rewrite <- ?List.app_assoc. reflexivity.
      * simpl users. apply lookup_insert_eq.
      * intros c old Hpath. unfold Os.is_file. simpl files.
        rewrite Hf2, Hpath, lookup_delete_eq.
        by apply bool_decide_eq_false_2, is_Some_None.
      * intros Hne. simpl files. rewrite Hf2, Hw1.
        destruct (avatar_path user) as [[|c old]|]; simpl files;
          rewrite ?lookup_delete_ne by (by apply Hne); apply lookup_insert_eq.
    + same_steps Hup Hold Hper H3. done.
Qed.

Lemma coordinated_replace_protocol_witness :
  let run := Api.upload_user_avatar Sample.settings Posix Sample.env_commit_fails 7
               (Sample.upload Sample.png) Sample.world_with_avatar in
  fst run = inl (HTTPException 500 (UpdateUserFailed (PyException "OperationalError"))) /\
  trace (snd run) =
    [EvMakedirs "uploads/avatars/7";
     EvWrite "uploads/avatars/7/00000000-0000-4000-8000-000000000000.png" Sample.png;
     EvRemove "uploads/avatars/7/11111111-1111-4111-8111-111111111111.jpg";
     EvRemove "uploads/avatars/7/00000000-0000-4000-8000-000000000000.png"] /\
  files (snd run) !! "uploads/avatars/7/00000000-0000-4000-8000-000000000000.png" = None.
Proof.
  intros run.
  pose (up := Storage.upload_avatar Sample.settings Posix Sample.env_commit_fails 7
                Sample.png Sample.world_with_avatar).
  pose (old := Api.delete_old_avatar Sample.settings Posix Sample.env_commit_fails
                 (mkUser "alice" (Some Sample.old_rel)) (snd up)).
  destruct (coordinated_replace_protocol Sample.settings Posix Sample.env_commit_fails 7
              (Sample.upload Sample.png) Sample.world_with_avatar (fst run) (snd run)
              (surjective_pairing run)) as (_ & _ & HC).
  destruct (HC (mkUser "alice" (Some Sample.old_rel)) Sample.png
              "avatars/7/00000000-0000-4000-8000-000000000000.png" (snd up) (snd old)
              (PyException "OperationalError") (snd old)) as (_ & _ & Hlay);
    try (vm_compute; reflexivity).
  specialize (Hlay "uploads").
  assert (fst run =
            inl (HTTPException 500 (UpdateUserFailed (PyException "OperationalError"))) /\
          snd run =
            removed Posix
              (Storage.abs_path Sample.settings Posix
                 "avatars/7/00000000-0000-4000-8000-000000000000.png") (snd old))
    as [Hr Hw].
  { apply Hlay; [split; reflexivity|].
    intros c rest [= <- <-] H. vm_compute in H. discriminate. }
  split; [exact Hr|]. rewrite Hw. split; vm_compute; reflexivity.
Defined.

(** C1 as stated fails when the compensating [delete_avatar] raises.  With
    the upload directory [uploads/pictures] the file is written below
    [uploads/pictures/7] and looked for below [uploads/pictures/avatars/7]:
    a commit that raises is answered 404, not with the persistence error,
    and the file just written stays on the disk.  And with the upload
    directory [uploads/avatars], when [os.remove] raises as well, the
    commit that raises is answered with the error of the failed deletion,
    and the file stays. *)
Lemma compensation_misses_new_file :
  (let run := Api.upload_user_avatar MoreSamples.pictures_settings Posix
                Sample.env_commit_fails 7 (Sample.upload Sample.png)
                MoreSamples.world_pictures in
   commit_error Sample.env_commit_fails = Some "OperationalError" /\
   fst run = inl (HTTPException 404 AvatarFileMissing) /\
   fst run <> inl (HTTPException 500 (UpdateUserFailed (PyException "OperationalError"))) /\
   trace (snd run) =
     [EvMakedirs "uploads/pictures/7";
      EvWrite "uploads/pictures/7/00000000-0000-4000-8000-000000000000.png" Sample.png] /\
   files (snd run) !! "uploads/pictures/7/00000000-0000-4000-8000-000000000000.png"
     = Some Sample.png /\
   users (snd run) = users MoreSamples.world_pictures) /\
  (let run := Api.upload_user_avatar Sample.settings Posix
                MoreSamples.env_commit_and_remove_fail 7 (Sample.upload Sample.png)
                Sample.world in
   fst run = inl (HTTPException 500 (DeleteFailed (PyException "PermissionError"))) /\
   fst run <> inl (HTTPException 500 (UpdateUserFailed (PyException "OperationalError"))) /\
   files (snd run) !! "uploads/avatars/7/00000000-0000-4000-8000-000000000000.png"
     = Some Sample.png).
Proof.
  split.
  - intros run.
    assert (fst run = inl (HTTPException 404 AvatarFileMissing)) as Hr
      by (vm_compute; reflexivity).
    split; [reflexivity|]. split; [exact Hr|]. split; [rewrite Hr; discriminate|].
    repeat split; vm_compute; reflexivity.
  - intros run.
    assert (fst run = inl (HTTPException 500 (DeleteFailed (PyException "PermissionError"))))
      as Hr by (vm_compute; reflexivity).
    split; [exact Hr|]. split; [rewrite Hr; discriminate|].
    vm_compute; reflexivity.
Qed.

(** C2. A buffer longer than the configured maximum makes [upload_avatar]
    raise the size error, an HTTP 400 (a client error), and the world is
    left as it was: no file and no directory is created. *)
Theorem upload_too_large_rejected settings os env user_id content w :
  (Z.of_nat (length content) > MAX_AVATAR_SIZE settings)%Z ->
  Storage.upload_avatar settings os env user_id content w =
    (inl (HTTPException 400 (FileTooLarge (MAX_AVATAR_SIZE settings))), w) /\
  (400 <= http_status (fst (Storage.upload_avatar settings os env user_id content w)) < 500)%Z.
Proof.
  intros Hbig.
  rewrite (upload_avatar_invalid _ _ _ _ _ _ _ (validate_too_large _ _ _ _ Hbig)).
  split; [reflexivity | simpl; lia].
Qed.

Lemma upload_too_large_rejected_witness :
  Storage.upload_avatar Sample.tight_settings Posix Sample.env 7 Sample.png Sample.world =
    (inl (HTTPException 400 (FileTooLarge 3)), Sample.world).
Proof.
  apply (upload_too_large_rejected Sample.tight_settings Posix Sample.env 7
           Sample.png Sample.world).
  vm_compute. reflexivity.
Defined.

(** C3, as the code has it.  The size is checked first; a buffer within the
    limit whose sniffed type is outside the allow-list makes [upload_avatar]
    raise the type error (HTTP 400) and leaves the world as it was.  The
    allow-list holds jpeg, png and gif, with [image/jpg] and [image/jpeg]
    both mapped to [jpg].  The type declared by the client plays no part:
    two uploads that read the same bytes give the same outcome. *)
Theorem upload_unsupported_type_rejected settings os env user_id content mime w :
  (Z.of_nat (length content) <= MAX_AVATAR_SIZE settings)%Z ->
  magic_from_buffer env content = inr mime ->
  mime ∉ Storage.allowed_mime_types ->
  Storage.upload_avatar settings os env user_id content w =
    (inl (HTTPException 400 (UnsupportedType mime)), w) /\
  (forall m, m ∈ Storage.allowed_mime_types <->
             m = "image/jpeg" \/ m = "image/png" \/ m = "image/gif" \/ m = "image/jpg") /\
  Storage.mime_to_ext !! "image/jpg" = Storage.mime_to_ext !! "image/jpeg" /\
  (forall file file',
     Api.file_read file = Api.file_read file' ->
     Api.upload_user_avatar settings os env user_id file w =
     Api.upload_user_avatar settings os env user_id file' w).
Proof.
  intros Hle Hm Hout. repeat split.
  - apply upload_avatar_invalid. by apply validate_unsupported.
  - apply allowed_cases.
  - unfold Storage.allowed_mime_types.
    rewrite !elem_of_union, !elem_of_singleton. tauto.
  - intros file file' Hread. unfold Api.upload_user_avatar. by rewrite Hread.
Qed.

Lemma upload_unsupported_type_rejected_witness :
  Storage.upload_avatar Sample.settings Posix Sample.env 7 Sample.text Sample.world =
    (inl (HTTPException 400 (UnsupportedType "text/plain")), Sample.world).
Proof.
  apply (upload_unsupported_type_rejected Sample.settings Posix Sample.env 7
           Sample.text "text/plain" Sample.world).
  - vm_compute. discriminate.
  - reflexivity.
  - apply text_plain_not_allowed.
Defined.

(** C3 as stated fails on a buffer that is also over the size limit: four
    bytes of text against a limit of three are refused for their size, not
    for their type. *)
Lemma oversize_text_refused_for_size :
  magic_from_buffer Sample.env Sample.text = inr "text/plain" /\
  ("text/plain" ∉ Storage.allowed_mime_types) /\
  Storage.upload_avatar Sample.tight_settings Posix Sample.env 7 Sample.text Sample.world =
    (inl (HTTPException 400 (FileTooLarge 3)), Sample.world) /\
  Storage.upload_avatar Sample.tight_settings Posix Sample.env 7 Sample.text Sample.world <>
    (inl (HTTPException 400 (UnsupportedType "text/plain")), Sample.world).
Proof.
  split; [reflexivity|]. split; [apply text_plain_not_allowed|].
  assert (Storage.upload_avatar Sample.tight_settings Posix Sample.env 7 Sample.text
            Sample.world =
          (inl (HTTPException 400 (FileTooLarge 3)), Sample.world)) as E
    by (vm_compute; reflexivity).
  split; [exact E|]. rewrite E. discriminate.
Qed.

(** C4. A successful [upload_avatar] returns
    [avatars/<user_id>/<uuid>.<ext>]: on either host system the separator is
    a slash (the path holds no backslash), the three components hold no
    separator, and [<ext>] is the entry of [mime_to_ext] for the type
    sniffed from the content. *)
Theorem upload_path_shape settings os env user_id content w p w' :
  Storage.upload_avatar settings os env user_id content w = (inr p, w') ->
  exists mime ext,
    magic_from_buffer env content = inr mime /\
    Storage.mime_to_ext !! mime = Some ext /\
    p = "avatars/" +:+ str_int user_id +:+ "/" +:+
        str_uuid (uuid4_int (os_urandom env)) +:+ "." +:+ ext /\
    all_chars name_char (str_int user_id) = true /\
    all_chars name_char (str_uuid (uuid4_int (os_urandom env))) = true /\
    all_chars name_char ext = true /\
    all_chars (fun c => negb (Ascii.eqb c "\")) p = true.
Proof.
  intros (mime & ext & _ & Hm & _ & Hext & Hcases & -> & _)%upload_avatar_ok_inv.
  exists mime, ext. repeat split; try done.
  - apply str_int_name.
  - apply str_uuid_name.
  - by apply ext_name_chars.
  - unfold avatar_rel. rewrite !all_chars_app.
    rewrite (all_chars_impl _ _ _ name_char_not_backslash (str_int_name user_id)).
    rewrite (all_chars_impl _ _ _ name_char_not_backslash
               (file_name_chars env ext (ext_name_chars ext Hcases))).
    reflexivity.
Qed.

Lemma upload_path_shape_witness :
  exists w',
    Storage.upload_avatar Sample.settings Windows Sample.env 7 Sample.png Sample.world =
      (inr "avatars/7/00000000-0000-4000-8000-000000000000.png", w') /\
    exists mime ext,
      magic_from_buffer Sample.env Sample.png = inr mime /\
      Storage.mime_to_ext !! mime = Some ext /\
      "avatars/7/00000000-0000-4000-8000-000000000000.png" =
        "avatars/" +:+ str_int 7 +:+ "/" +:+
        str_uuid (uuid4_int (os_urandom Sample.env)) +:+ "." +:+ ext.
Proof.
  eexists. split; [vm_compute; reflexivity|].
  destruct (upload_path_shape Sample.settings Windows Sample.env 7 Sample.png Sample.world
              "avatars/7/00000000-0000-4000-8000-000000000000.png" _
              ltac:(vm_compute; reflexivity))
    as (mime & ext & H1 & H2 & H3 & _).
  exists mime, ext. auto.
Defined.

(** C5, as the code has it.  [delete_avatar] joins the relative path onto
    the configured root (the upload directory without [avatars]) with
    [os.path.join], and checks nothing about the result.  For a root
    without drive: a path that begins with a separator is taken as it is
    and the root is dropped; a path that does not (and has no drive) is
    put behind the root, with a separator between the two where the root
    does not end in one, so that the result begins with the root and begins
    at the root directory exactly when the root does.  When nothing is at
    the resulting place the call raises the 404 of a missing avatar file;
    when the removal itself raises, it raises the 500 of a failed deletion;
    in both cases the world is untouched.  Otherwise the file is removed
    and the call returns no value. *)
Theorem delete_avatar_contract settings os env rel w :
  Storage.abs_path settings os rel =
    os_path_join os (str_replace "avatars" "" (UPLOAD_DIR settings)) rel /\
  (has_drive os (str_replace "avatars" "" (UPLOAD_DIR settings)) = false ->
   (starts_with_sep os rel = true -> Storage.abs_path settings os rel = rel) /\
   (starts_with_sep os rel = false -> has_drive os rel = false ->
    Storage.abs_path settings os rel =
      str_replace "avatars" "" (UPLOAD_DIR settings) +:+
      (if String.eqb (str_replace "avatars" "" (UPLOAD_DIR settings)) "" ||
          ends_with_sep os (str_replace "avatars" "" (UPLOAD_DIR settings))
       then "" else os_sep os) +:+ rel /\
    String.prefix (str_replace "avatars" "" (UPLOAD_DIR settings))
                  (Storage.abs_path settings os rel) = true /\
    starts_with_sep os (Storage.abs_path settings os rel) =
      starts_with_sep os (str_replace "avatars" "" (UPLOAD_DIR settings)))) /\
  (Os.path_exists os (Storage.abs_path settings os rel) w = false ->
   Storage.delete_avatar settings os env rel w =
     (inl (HTTPException 404 AvatarFileMissing), w)) /\
  (forall e w2,
     Os.path_exists os (Storage.abs_path settings os rel) w = true ->
     Os.remove env os (Storage.abs_path settings os rel) w = (inl e, w2) ->
     Storage.delete_avatar settings os env rel w =
       (inl (HTTPException 500 (DeleteFailed e)), w) /\ w2 = w) /\
  (forall w2,
     Os.remove env os (Storage.abs_path settings os rel) w = (inr tt, w2) ->
     Storage.delete_avatar settings os env rel w = (inr tt, w2) /\
     w2 = removed os (Storage.abs_path settings os rel) w /\
     files w2 !! Os.fs_key os (Storage.abs_path settings os rel) = None).
Proof.
  split; [reflexivity|]. split; [|split; [|split]].
  - intros _. unfold Storage.abs_path, os_path_join. split.
    + by intros ->.
    + intros Hrel _. rewrite Hrel.
      destruct (str_replace "avatars" "" (UPLOAD_DIR settings)) as [|c root].
      * rewrite !str_app_nil_l. repeat split; [apply prefix_nil | done].
      * destruct (_ || _); rewrite ?str_app_nil_l; repeat split; apply prefix_app.
  - apply delete_avatar_missing.
  - intros e w2 Hx Hr. unfold Storage.delete_avatar, try_except, raise.
    rewrite Hx, Hr. enough (w2 = w) as -> by done.
    revert Hr. unfold Os.remove.
    destruct (Os.is_dir os _ w); [congruence|].
    destruct (negb _); [congruence|].
    destruct (remove_error env _); congruence.
  - intros w2 Hr. unfold Storage.delete_avatar, try_except, Os.path_exists.
    rewrite Hr. revert Hr. unfold Os.remove.
    destruct (Os.is_dir os _ w); [done|].
    destruct (Os.is_file os _ w); [|done]. simpl.
    destruct (remove_error env _); [done|]. intros [= <-].
    repeat split. apply lookup_delete_eq.
Qed.

Lemma delete_avatar_contract_witness :
  exists w2,
    Storage.delete_avatar Sample.settings Posix Sample.env Sample.old_rel
      Sample.world_with_avatar = (inr tt, w2) /\
    files w2 !! Os.fs_key Posix (Storage.abs_path Sample.settings Posix Sample.old_rel) = None.
Proof.
  pose (rm := Os.remove Sample.env Posix (Storage.abs_path Sample.settings Posix Sample.old_rel)
                Sample.world_with_avatar).
  destruct (delete_avatar_contract Sample.settings Posix Sample.env Sample.old_rel
              Sample.world_with_avatar) as (_ & _ & _ & _ & Hok).
  destruct (Hok (snd rm)) as (Hdel & _ & Hgone); [vm_compute; reflexivity|].
  by exists (snd rm).
Defined.

(** C5 as stated fails twice on the sample deployment.  The root is
    [uploads/], a relative path, and so is the place of an uploaded avatar:
    it is no absolute location.  And a path that begins with a slash is not
    looked up under the root: [/etc/hosts] is resolved to [/etc/hosts], which
    does not begin with [uploads/], and the file there is removed. *)
Lemma delete_avatar_resolves_outside_root :
  str_replace "avatars" "" (UPLOAD_DIR Sample.settings) = "uploads/" /\
  Storage.abs_path Sample.settings Posix Sample.old_rel = "uploads/" +:+ Sample.old_rel /\
  starts_with_sep Posix (Storage.abs_path Sample.settings Posix Sample.old_rel) = false /\
  Storage.abs_path Sample.settings Posix "/etc/hosts" = "/etc/hosts" /\
  String.prefix "uploads/" (Storage.abs_path Sample.settings Posix "/etc/hosts") = false /\
  files MoreSamples.world_with_hosts !! "/etc/hosts" = Some Sample.text /\
  Storage.delete_avatar Sample.settings Posix Sample.env "/etc/hosts"
    MoreSamples.world_with_hosts =
    (inr tt, removed Posix "/etc/hosts" MoreSamples.world_with_hosts) /\
  files (removed Posix "/etc/hosts" MoreSamples.world_with_hosts) !! "/etc/hosts" = None.
Proof. repeat split; vm_compute; reflexivity. Qed.

(** C6, as the code has it.  [delete_user_avatar] answers 404 when the user
    does not exist (for an id the table can hold), and 400 (not 404) when
    the user exists and has no avatar path, [None] or empty; it answers 404
    when the path on record has nothing behind it on the disk.  A run that
    returns has removed the file, then committed the row without avatar
    path, and answers 200 with the message of a done deletion. *)
Theorem delete_user_avatar_status settings os env user_id w :
  (Session.key_in_range user_id = true ->
   users w !! user_id = None ->
   Api.delete_user_avatar settings os env user_id w =
     (inl (HTTPException 404 UserNotFound), w)) /\
  (forall user,
     users w !! user_id = Some user ->
     avatar_path user = None \/ avatar_path user = Some "" ->
     Api.delete_user_avatar settings os env user_id w =
       (inl (HTTPException 400 NoAvatar), w)) /\
  (forall user c old,
     users w !! user_id = Some user ->
     avatar_path user = Some (String c old) ->
     Os.path_exists os (Storage.abs_path settings os (String c old)) w = false ->
     Api.delete_user_avatar settings os env user_id w =
       (inl (HTTPException 404 AvatarFileMissing), w)) /\
  (forall resp w',
     Api.delete_user_avatar settings os env user_id w = (inr resp, w') ->
     http_status (@inr exn _ resp) = 200%Z /\
     resp = Api.mkDeleteResponse Api.AvatarDeleted user_id /\
     exists user c old,
       users w !! user_id = Some user /\ avatar_path user = Some (String c old) /\
       trace w' = (trace w ++
         [EvRemove (Storage.abs_path settings os (String c old));
          EvCommit user_id None])%list /\
       Os.is_file os (Storage.abs_path settings os (String c old)) w' = false /\
       users w' !! user_id = Some (mkUser (username user) None)).
Proof.
  unfold Api.delete_user_avatar, bind, Session.get.
  split; [by intros _ ->|]. split; [|split].
  - intros user -> [-> | ->]; reflexivity.
  - intros user c old -> -> Hx. by rewrite delete_avatar_missing.
  - intros resp w'. destruct (users w !! user_id) as [user|]; [|done].
    destruct (avatar_path user) as [[|c old]|] eqn:Hold; [done| |done].
    destruct (Storage.delete_avatar settings os env (String c old) w)
      as [[e|[]] w1] eqn:Hdel; [done|].
    apply delete_avatar_ok_inv in Hdel as [_ ->].
    unfold Session.commit, Session.refresh.
    destruct (commit_error env); [done|].
    destruct (refresh_error env); [done|].
    simpl users. rewrite lookup_insert_eq. unfold ret. intros [= <- <-].
    repeat split. exists user, c, old. repeat split; try done.
    + simpl. by rewrite <- List.app_assoc.
    + unfold Os.is_file. simpl files. rewrite lookup_delete_eq.
      by apply bool_decide_eq_false_2, is_Some_None.
    + simpl users. apply lookup_insert_eq.
Qed.

Lemma delete_user_avatar_status_witness :
  exists w',
    Api.delete_user_avatar Sample.settings Posix Sample.env 7 Sample.world_with_avatar =
      (inr (Api.mkDeleteResponse Api.AvatarDeleted 7), w') /\
    users w' !! 7%Z = Some (mkUser "alice" None).
Proof.
  pose (run := Api.delete_user_avatar Sample.settings Posix Sample.env 7
                 Sample.world_with_avatar).
  assert (run = (inr (Api.mkDeleteResponse Api.AvatarDeleted 7), snd run)) as Hrun
    by (vm_compute; reflexivity).
  exists (snd run). split; [exact Hrun|].
  destruct (delete_user_avatar_status Sample.settings Posix Sample.env 7
              Sample.world_with_avatar) as (_ & _ & _ & Hok).
  destruct (Hok _ _ Hrun) as (_ & _ & user & c & old & Huser & _ & _ & _ & Hrow).
  rewrite Hrow.
  assert (users Sample.world_with_avatar !! 7%Z =
          Some (mkUser "alice" (Some Sample.old_rel))) as Hrow7
    by (vm_compute; reflexivity).
  rewrite Hrow7 in Huser. by injection Huser as <-.
Defined.

(** C6 as stated fails for a user without avatar: user 7 of the sample
    world exists, has no avatar path, and is answered 400. *)
Lemma delete_without_avatar_answers_400 :
  users Sample.world !! 7%Z = Some (mkUser "alice" None) /\
  Api.delete_user_avatar Sample.settings Posix Sample.env 7 Sample.world =
    (inl (HTTPException 400 NoAvatar), Sample.world) /\
  http_status (fst (Api.delete_user_avatar Sample.settings Posix Sample.env 7 Sample.world))
    <> 404%Z.
Proof. by vm_compute. Qed.

(** C7. [get_avatar_url] is a function of the settings and the path alone:
    it takes no world and raises nothing.  Its value is the base URL, then
    [/static/], then the path; a PNG uploaded for user 7 is answered with
    the path [avatars/7/<id>.png] and the URL
    [<base_url>/static/avatars/7/<id>.png]. *)
Theorem get_avatar_url_composition settings :
  (forall p, Storage.get_avatar_url settings p = BASE_URL settings +:+ "/static/" +:+ p) /\
  (forall os env file content w resp w',
     Api.file_read file = inr content ->
     magic_from_buffer env content = inr "image/png" ->
     Api.upload_user_avatar settings os env 7 file w = (inr resp, w') ->
     let id := str_uuid (uuid4_int (os_urandom env)) in
     Api.up_avatar_path resp = Some ("avatars/7/" +:+ id +:+ ".png") /\
     Api.up_avatar_url resp =
       BASE_URL settings +:+ "/static/" +:+ "avatars/7/" +:+ id +:+ ".png").
Proof.
  split; [reflexivity|].
  intros os env file content w resp w' Hread Hpng.
  unfold Api.upload_user_avatar, bind, Session.get.
  destruct (users w !! 7%Z) as [user|]; [|done].
  rewrite Hread. unfold ret at 1.
  destruct (Storage.upload_avatar settings os env 7 content w) as [[e|p] w1] eqn:Hup; [done|].
  apply upload_avatar_ok_inv in Hup
    as (m & ext & _ & Hm & _ & Hext & _ & -> & _).
  rewrite Hpng in Hm. injection Hm as <-.
  assert (ext = "png") as -> by (vm_compute in Hext; congruence).
  destruct (Api.delete_old_avatar settings os env user w1) as [[e|[]] w2]; [done|].
  unfold try_except, Api.persist_avatar_path, bind, Session.commit, Session.refresh.
  destruct (commit_error env).
  { unfold raise. by destruct (Storage.delete_avatar _ _ _ _ _) as [[?|?] ?]. }
  simpl users. rewrite lookup_insert_eq.
  destruct (refresh_error env).
  { unfold raise. by destruct (Storage.delete_avatar _ _ _ _ _) as [[?|?] ?]. }
  unfold ret. intros [= <- _]. simpl. split; reflexivity.
Qed.

Lemma get_avatar_url_composition_witness :
  exists resp w',
    Api.upload_user_avatar Sample.settings Posix Sample.env 7 (Sample.upload Sample.png)
      Sample.world = (inr resp, w') /\
    Api.up_avatar_url resp =
      "http://127.0.0.1:5005/static/avatars/7/00000000-0000-4000-8000-000000000000.png".
Proof.
  pose (run := Api.upload_user_avatar Sample.settings Posix Sample.env 7
                 (Sample.upload Sample.png) Sample.world).
  destruct (fst run) as [e|resp] eqn:Hfst; [by vm_compute in Hfst|].
  exists resp, (snd run).
  assert (run = (inr resp, snd run)) as Hrun
    by (rewrite <- Hfst; apply surjective_pairing).
  split; [exact Hrun|].
  destruct (get_avatar_url_composition Sample.settings) as [_ Hurl].
  destruct (Hurl Posix Sample.env (Sample.upload Sample.png) Sample.png Sample.world
              resp (snd run) eq_refl eq_refl Hrun) as [_ ->].
  vm_compute. reflexivity.
Defined.



(** C9. [delete_avatar] takes every occurrence of [avatars] out of the
    upload directory and joins the relative path onto what is left.  For an
    upload directory [<root>/avatars] with no [avatars] in [<root>], what is
    left is [<root>/], and deleting the path a successful upload returned
    finds the file that upload wrote: it removes that file and no other, and
    leaves directories and rows alone (or, when [os.remove] itself raises,
    it raises the 500 of a failed deletion and changes nothing). *)
Theorem upload_delete_round_trip settings os env root user_id content w p w1 :
  avatars_layout settings root ->
  Storage.upload_avatar settings os env user_id content w = (inr p, w1) ->
  Storage.abs_path settings os p =
    os_path_join os (str_replace "avatars" "" (UPLOAD_DIR settings)) p /\
  str_replace "avatars" "" (UPLOAD_DIR settings) = root +:+ "/" /\
  exists ext,
    Os.fs_key os (Storage.abs_path settings os p) =
      Os.fs_key os (Storage.file_path settings os env user_id ext) /\
    files w1 = <[Os.fs_key os (Storage.file_path settings os env user_id ext) := content]>
                 (files w) /\
    match remove_error env (Storage.abs_path settings os p) with
    | None =>
        exists w2,
          Storage.delete_avatar settings os env p w1 = (inr tt, w2) /\
          files w2 =
            delete (Os.fs_key os (Storage.file_path settings os env user_id ext)) (files w1) /\
          dirs w2 = dirs w1 /\ users w2 = users w1
    | Some msg =>
        Storage.delete_avatar settings os env p w1 =
          (inl (HTTPException 500 (DeleteFailed (PyException msg))), w1)
    end.
Proof.
  intros Hlay Hup. split; [reflexivity|].
  split; [destruct Hlay as [-> Hroot]; by apply str_replace_avatars_root|].
  apply upload_avatar_ok_inv in Hup
    as (m & ext & _ & _ & _ & _ & Hext & -> & _ & _ & _ & Hnd & ->).
  pose proof (abs_path_of_upload settings os env root user_id ext Hlay Hext) as Hkey.
  exists ext. split; [exact Hkey|]. split; [reflexivity|].
  set (w1 := uploaded settings os env user_id ext content w) in *.
  assert (Os.is_file os (Storage.abs_path settings os (avatar_rel env user_id ext)) w1 = true)
    as Hfile.
  { unfold Os.is_file. rewrite Hkey. simpl files. rewrite lookup_insert_eq.
    by apply bool_decide_eq_true_2. }
  assert (Os.is_dir os (Storage.abs_path settings os (avatar_rel env user_id ext)) w1 = false)
    as Hdir.
  { unfold Os.is_dir. rewrite Hkey. by apply bool_decide_eq_false_2. }
  destruct (remove_error env _) as [msg|] eqn:Herr.
  - unfold Storage.delete_avatar, Os.path_exists, try_except, Os.remove, raise.
    by rewrite Hfile, Hdir, Herr.
  - exists (removed os (Storage.abs_path settings os (avatar_rel env user_id ext)) w1).
    split; [by apply delete_avatar_ok|].
    unfold removed. simpl. by rewrite Hkey.
Qed.

Lemma upload_delete_round_trip_witness :
  exists p w1 w2,
    Storage.upload_avatar Sample.settings Posix Sample.env 7 Sample.png Sample.world_with_avatar
      = (inr p, w1) /\
    Storage.delete_avatar Sample.settings Posix Sample.env p w1 = (inr tt, w2) /\
    dirs w2 = dirs w1 /\ users w2 = users w1.
Proof.
  pose (r := Storage.upload_avatar Sample.settings Posix Sample.env 7 Sample.png
               Sample.world_with_avatar).
  assert (r = (inr "avatars/7/00000000-0000-4000-8000-000000000000.png", snd r)) as Hr
    by (vm_compute; reflexivity).
  destruct (upload_delete_round_trip Sample.settings Posix Sample.env "uploads" 7
              Sample.png Sample.world_with_avatar _ _
              ltac:(split; reflexivity) Hr)
    as (_ & _ & ext & _ & _ & Hdel).
  simpl remove_error in Hdel. destruct Hdel as (w2 & Hdel & _ & Hdirs & Husers).
  exists "avatars/7/00000000-0000-4000-8000-000000000000.png", (snd r), w2.
  auto.
Defined.

(** C10. The user lookup and the whole validation come before any change:
    when the user does not exist, or when the bytes are over the size limit,
    cannot be sniffed, or have a sniffed type outside the allow-list,
    [upload_user_avatar] raises and the world is the one it started from: no
    file or directory is created, none is removed, no row is changed. *)
Theorem rejected_upload_changes_nothing settings os env user_id file w :
  (users w !! user_id = None \/
   exists content,
     Api.file_read file = inr content /\
     ((Z.of_nat (length content) > MAX_AVATAR_SIZE settings)%Z \/
      (exists msg, magic_from_buffer env content = inl msg) \/
      (exists mime, magic_from_buffer env content = inr mime /\
                    mime ∉ Storage.allowed_mime_types))) ->
  exists e,
    Api.upload_user_avatar settings os env user_id file w = (inl e, w) /\
    (400 <= http_status (@inl exn Api.UploadResponse e) < 500)%Z.
Proof.
  unfold Api.upload_user_avatar, bind, Session.get.
  intros [-> | (content & Hread & Hbad)].
  { eexists. split; [reflexivity|]. simpl. lia. }
  destruct (users w !! user_id) as [user|].
  2: { eexists. split; [reflexivity|]. simpl. lia. }
  rewrite Hread. unfold ret at 1.
  assert (exists d, Storage._validate_file settings env content w =
                    (inl (HTTPException 400 d), w)) as [d Hv].
  { destruct (Z.gtb_spec (Z.of_nat (length content)) (MAX_AVATAR_SIZE settings)) as [Hgt|Hle].
    - eexists. apply validate_too_large. lia.
    - destruct Hbad as [Hgt | [[msg Hm] | (mime & Hm & Hout)]]; [lia| |].
      + eexists. by apply validate_sniff_failed.
      + eexists. by apply validate_unsupported. }
  rewrite (upload_avatar_invalid _ _ _ _ _ _ _ Hv).
  eexists. split; [reflexivity|]. simpl. lia.
Qed.

Lemma rejected_upload_changes_nothing_witness :
  exists e,
    Api.upload_user_avatar Sample.settings Posix Sample.env 7 (Sample.upload Sample.text)
      Sample.world_with_avatar = (inl e, Sample.world_with_avatar).
Proof.
  destruct (rejected_upload_changes_nothing Sample.settings Posix Sample.env 7
              (Sample.upload Sample.text) Sample.world_with_avatar) as (e & He & _).
  - right. exists Sample.text. split; [reflexivity|].
    right. right. exists "text/plain". split; [reflexivity | apply text_plain_not_allowed].
  - by exists e.
Defined.

(* ===================================================================== *)
(** * Further facts about names and paths                                 *)
(* ===================================================================== *)

Module NameFacts.

Import PyStrFacts PathFacts StorageFacts.

Lemma str_app_inv_head p s t : p +:+ s = p +:+ t -> s = t.
Proof.
  induction p as [|c p IH]; [done|].
  rewrite !str_app_cons. intros [= H]. by apply IH.
Qed.

(** Two strings cut at their first [c] agree piece by piece. *)
Lemma str_app_inv_char c s1 t1 s2 t2 :
  all_chars (fun x => negb (Ascii.eqb x c)) s1 = true ->
  all_chars (fun x => negb (Ascii.eqb x c)) s2 = true ->
  s1 +:+ String c t1 = s2 +:+ String c t2 ->
  s1 = s2 /\ t1 = t2.
Proof.
  revert s2. induction s1 as [|a s1 IH]; intros [|b s2] H1 H2.
  - rewrite !str_app_nil_l. by intros [= ->].
  - rewrite str_app_nil_l, str_app_cons. intros [= <- _].
    simpl in H2. by rewrite Ascii.eqb_refl in H2.
  - rewrite str_app_nil_l, str_app_cons. intros [= -> _].
    simpl in H1. by rewrite Ascii.eqb_refl in H1.
  - rewrite !str_app_cons. intros [= -> H].
    simpl in H1, H2. apply andb_true_iff in H1 as [_ H1], H2 as [_ H2].
    destruct (IH s2 H1 H2 H) as [-> ->]. done.
Qed.

Lemma str_replace_absent old new s :
  str_contains old s = false -> str_replace old new s = s.
Proof.
  induction s as [|c s IH]; [done|].
  change (str_contains old (String c s))
    with (String.prefix old (String c s) || str_contains old s).
  intros [Hp Hs]%orb_false_iff. rewrite str_replace_cons, Hp. by rewrite IH.
Qed.

Lemma str_int_inj a b : str_int a = str_int b -> a = b.
Proof.
  assert (forall n, NilZero.int_of_string (str_int n) = Some (Z.to_int n)) as Hparse.
  { intros n. unfold str_int. apply NilZero.isi; destruct n; simpl; try done;
      intros [= H]; by apply Unsigned.to_uint_nonnil in H. }
  intros H. apply DecimalZ.to_int_inj.
  pose proof (Hparse a) as Ha. rewrite H, Hparse in Ha. congruence.
Qed.

Lemma str_int_head n : exists c s, str_int n = String c s /\ int_char c = true.
Proof.
  destruct (str_int_cons n) as (c & s & E). exists c, s. split; [done|].
  pose proof (str_int_chars n) as H. rewrite E in H. simpl in H.
  by apply andb_true_iff in H as [H _].
Qed.

Lemma name_char_no_slash s :
  all_chars name_char s = true ->
  all_chars (fun x => negb (Ascii.eqb x "/")) s = true.
Proof.
  apply all_chars_impl. intros c H. by rewrite (name_char_not_slash c H).
Qed.

Lemma uuid_char_no_dot s :
  all_chars uuid_char s = true ->
  all_chars (fun x => negb (Ascii.eqb x ".")) s = true.
Proof.
  apply all_chars_impl. intros c. destruct c as [[] [] [] [] [] [] [] []]; by vm_compute.
Qed.

Lemma normsep_name s : all_chars name_char s = true -> Os.normsep s = s.
Proof.
  induction s as [|c s IH]; [done|]. simpl.
  intros [Hc Hs]%andb_true_iff. by rewrite (name_char_not_slash c Hc), IH.
Qed.

Lemma fs_key_app os s t : Os.fs_key os (s +:+ t) = Os.fs_key os s +:+ Os.fs_key os t.
Proof. destruct os; [done|]. simpl. induction s as [|c s IH]; [done|].
  rewrite str_app_cons. simpl. by rewrite IH, str_app_cons. Qed.

Lemma fs_key_name os s : all_chars name_char s = true -> Os.fs_key os s = s.
Proof. destruct os; [done|]. apply normsep_name. Qed.

(** ** The digits of a UUID *)

Lemma hex_digit_inj a b :
  (a < 16)%N -> (b < 16)%N -> hex_digit a = hex_digit b -> a = b.
Proof.
  assert (forall x, (x < 16)%N ->
            (x = 0 \/ x = 1 \/ x = 2 \/ x = 3 \/ x = 4 \/ x = 5 \/ x = 6 \/ x = 7 \/
             x = 8 \/ x = 9 \/ x = 10 \/ x = 11 \/ x = 12 \/ x = 13 \/ x = 14 \/ x = 15)%N)
    as Hcases by (intros; lia).
  intros Ha Hb.
  destruct (Hcases a Ha) as [->|[->|[->|[->|[->|[->|[->|[->|[->|[->|[->|[->|[->|[->|[->| ->]]]]]]]]]]]]]]];
  destruct (Hcases b Hb) as [->|[->|[->|[->|[->|[->|[->|[->|[->|[->|[->|[->|[->|[->|[->| ->]]]]]]]]]]]]]]];
  vm_compute; congruence.
Qed.

Lemma hex_fixed_length w n : String.length (hex_fixed w n) = w.
Proof. induction w as [|w IH]; [done|]. simpl. by rewrite IH. Qed.

(** The digits determine the low [4 * w] bits. *)
Lemma hex_fixed_inj w n m :
  hex_fixed w n = hex_fixed w m ->
  (n mod 2 ^ (4 * N.of_nat w) = m mod 2 ^ (4 * N.of_nat w))%N.
Proof.
  induction w as [|w IH].
  - intros _. simpl. by rewrite !N.mod_1_r.
  - simpl hex_fixed. intros [= Hd Ht]. specialize (IH Ht).
    change 15%N with (N.ones 4) in Hd. rewrite !N.land_ones, !N.shiftr_div_pow2 in Hd.
    apply hex_digit_inj in Hd; [|by apply N.mod_lt..].
    replace (4 * N.of_nat (S w))%N with (4 * N.of_nat w + 4)%N by lia.
    rewrite N.pow_add_r, !N.Div0.mod_mul_r. by rewrite IH, Hd.
Qed.

Lemma str_uuid_format_inj h1 h2 :
  String.length h1 = 32 -> String.length h2 = 32 ->
  String.substring 0 8 h1 +:+ "-" +:+ String.substring 8 4 h1 +:+ "-" +:+
  String.substring 12 4 h1 +:+ "-" +:+ String.substring 16 4 h1 +:+ "-" +:+
  String.substring 20 12 h1 =
  String.substring 0 8 h2 +:+ "-" +:+ String.substring 8 4 h2 +:+ "-" +:+
  String.substring 12 4 h2 +:+ "-" +:+ String.substring 16 4 h2 +:+ "-" +:+
  String.substring 20 12 h2 ->
  h1 = h2.
Proof.
  intros L1 L2.
  do 32 (destruct h1 as [|? h1]; [discriminate L1|]).
  destruct h1; [|discriminate L1].
  do 32 (destruct h2 as [|? h2]; [discriminate L2|]).
  destruct h2; [|discriminate L2].
  clear L1 L2. vm_compute. congruence.
Qed.

Lemma str_uuid_inj u v :
  (u < 2 ^ 128)%N -> (v < 2 ^ 128)%N -> str_uuid u = str_uuid v -> u = v.
Proof.
  intros Hu Hv H. unfold str_uuid in H.
  apply str_uuid_format_inj in H; [|apply hex_fixed_length..].
  apply hex_fixed_inj in H. change (4 * N.of_nat 32)%N with 128%N in H.
  by rewrite !N.mod_small in H.
Qed.

Lemma lor_lt_pow2 a b n :
  (a < 2 ^ n)%N -> (b < 2 ^ n)%N -> (N.lor a b < 2 ^ n)%N.
Proof.
  intros Ha Hb.
  destruct (N.eq_dec (N.lor a b) 0%N) as [->|Hne]; [lia|].
  apply N.log2_lt_pow2; [lia|]. rewrite N.log2_lor.
  destruct (N.eq_dec a 0%N) as [->|Ha0]; destruct (N.eq_dec b 0%N) as [->|Hb0].
  - done.
  - rewrite N.max_r by (simpl; lia). apply N.log2_lt_pow2; lia.
  - rewrite N.max_l by (simpl; lia). apply N.log2_lt_pow2; lia.
  - apply N.max_lub_lt; apply N.log2_lt_pow2; lia.
Qed.

Lemma uuid4_int_bound r : (uuid4_int r < 2 ^ 128)%N.
Proof.
  unfold uuid4_int.
  apply lor_lt_pow2; [|by vm_compute].
  eapply N.le_lt_trans; [apply N.ldiff_le_l|].
  apply lor_lt_pow2; [|by vm_compute].
  eapply N.le_lt_trans; [apply N.ldiff_le_l|].
  by apply N.mod_lt.
Qed.

End NameFacts.

(* ===================================================================== *)
(** * Further facts: failures, frames and the user table                  *)
(* ===================================================================== *)

Module MoreFacts.

Import PyStrFacts PathFacts StorageFacts ApiFacts.

Section WithSettings.

Variable settings : Settings.
Variable os : host_os.
Variable env : Env.

(** A failed [upload_avatar] in full: nothing changed; or the user
    directory was made and the file could not be opened; or the file was
    opened and the write raised, which leaves a file with the bytes that
    reached the disk. *)
Lemma upload_avatar_err_cases user_id content e w w' :
  Storage.upload_avatar settings os env user_id content w = (inl e, w') ->
  w' = w \/
  (exists e0 ext,
     e = HTTPException 500 (WriteFailed e0) /\
     (ext = "jpg" \/ ext = "png" \/ ext = "gif") /\
     (w' = dir_made settings os user_id w \/
      exists msg n,
        e0 = PyException msg /\
        write_error env (Storage.file_path settings os env user_id ext) = Some (msg, n) /\
        w' = write_failed os (Storage.file_path settings os env user_id ext)
               (take n content) (dir_made settings os user_id w))).
Proof.
  unfold Storage.upload_avatar, bind.
  destruct (Storage._validate_file settings env content w) as [[ev|m] wv] eqn:Hv.
  { destruct (validate_err_inv _ _ _ _ _ _ Hv) as [-> _]. intros [= <- <-]. by left. }
  apply validate_ok_inv in Hv as (-> & _ & _ & Hin).
  destruct (allowed_ext m Hin) as (ext & -> & Hext). simpl default.
  unfold Os.makedirs.
  destruct (Os.is_file os (Storage.user_dir settings os user_id) w);
    [intros [= <- <-]; eauto|].
  destruct (makedirs_error env (Storage.user_dir settings os user_id));
    [intros [= <- <-]; eauto|].
  unfold try_except, Os.write_file, raise.
  destruct (Os.is_dir os _ _); [intros [= <- <-]; right; eauto 8|].
  destruct (open_error env _); [intros [= <- <-]; right; eauto 8|].
  destruct (write_error env _) as [[msg n]|] eqn:Hw; [|done].
  intros [= <- <-]. right. exists (PyException msg), ext.
  split; [done|]. split; [done|]. right. exists msg, n.
  split; [done|]. split; [done|].
  unfold write_failed, dir_made. simpl. by rewrite <- List.app_assoc.
Qed.

Lemma select_by_username_None name w :
  Users.select_by_username name w = None <->
  forall i u, users w !! i = Some u -> username u <> name.
Proof.
  unfold Users.select_by_username. rewrite head_None, map_to_list_empty_iff.
  rewrite map_empty_filter. unfold map_Forall. simpl. done.
Qed.

Lemma select_by_username_Some name w i u :
  Users.select_by_username name w = Some (i, u) ->
  users w !! i = Some u /\ username u = name.
Proof.
  unfold Users.select_by_username. intros H.
  apply head_Some_elem_of, elem_of_map_to_list in H.
  by apply map_lookup_filter_Some in H.
Qed.

Lemma upload_avatar_users user_id content r w w' :
  Storage.upload_avatar settings os env user_id content w = (r, w') ->
  users w' = users w.
Proof.
  destruct r as [e|p].
  - by intros [-> | (e0 & ext & _ & _ & [-> | (msg & n & _ & _ & ->)])]%upload_avatar_err_cases.
  - by intros (m & ext & _ & _ & _ & _ & _ & _ & _ & _ & _ & _ & ->)%upload_avatar_ok_inv.
Qed.

(** Whatever [delete_avatar] answers, it leaves rows and directories
    alone, and a returning call leaves nothing at the path. *)
Lemma delete_avatar_users rel r w w' :
  Storage.delete_avatar settings os env rel w = (r, w') ->
  users w' = users w /\ dirs w' = dirs w.
Proof.
  destruct r as [e|[]].
  - by intros [-> _]%delete_avatar_err_inv.
  - by intros [_ ->]%delete_avatar_ok_inv.
Qed.

Lemma delete_avatar_ok_gone rel w w' :
  Storage.delete_avatar settings os env rel w = (inr tt, w') ->
  Os.path_exists os (Storage.abs_path settings os rel) w' = false.
Proof.
  unfold Storage.delete_avatar, Os.path_exists, try_except, Os.remove, raise.
  destruct (Os.is_file os (Storage.abs_path settings os rel) w) eqn:Hf;
    destruct (Os.is_dir os (Storage.abs_path settings os rel) w) eqn:Hd; simpl; try done.
  destruct (remove_error env (Storage.abs_path settings os rel)); [done|].
  intros [= <-]. unfold Os.is_file, Os.is_dir in *. simpl.
  rewrite lookup_delete_eq, Hd.
  by rewrite bool_decide_eq_false_2 by apply is_Some_None.
Qed.

Lemma delete_old_avatar_users user r w w' :
  Api.delete_old_avatar settings os env user w = (r, w') ->
  users w' = users w.
Proof.
  unfold Api.delete_old_avatar.
  destruct (avatar_path user) as [[|c old]|]; try by intros [= _ <-].
  by intros [? _]%delete_avatar_users.
Qed.

(** A run of [upload_user_avatar] that returns, read backwards. *)
Lemma upload_user_avatar_ok_inv user_id file resp w w' :
  Api.upload_user_avatar settings os env user_id file w = (inr resp, w') ->
  exists user content ext w2,
    users w !! user_id = Some user /\ Api.file_read file = inr content /\
    (ext = "jpg" \/ ext = "png" \/ ext = "gif") /\
    Storage.upload_avatar settings os env user_id content w =
      (inr (avatar_rel env user_id ext), uploaded settings os env user_id ext content w) /\
    Api.delete_old_avatar settings os env user
      (uploaded settings os env user_id ext content w) = (inr tt, w2) /\
    commit_error env = None /\ refresh_error env = None /\
    resp = Api.mkUploadResponse Api.AvatarUploaded user_id
             (Some (avatar_rel env user_id ext))
             (Storage.get_avatar_url settings (avatar_rel env user_id ext)) /\
    w' = committed user_id (with_avatar user (avatar_rel env user_id ext)) w2.
Proof.
  unfold Api.upload_user_avatar, bind, Session.get.
  destruct (users w !! user_id) as [user|] eqn:Huser; [|done].
  destruct (Api.file_read file) as [msg0|content] eqn:Hread; [done|].
  unfold ret at 1.
  destruct (Storage.upload_avatar settings os env user_id content w)
    as [[e1|new] w1] eqn:Hup; [done|].
  pose proof Hup
    as (m & ext & _ & _ & _ & _ & Hext & -> & _ & _ & _ & _ & ->)%upload_avatar_ok_inv.
  destruct (Api.delete_old_avatar settings os env user _) as [[e2|[]] w2] eqn:Hold; [done|].
  unfold try_except.
  destruct (Api.persist_avatar_path env user_id user (avatar_rel env user_id ext) w2)
    as [[e3|u] w3] eqn:Hper.
  { unfold raise. by destruct (Storage.delete_avatar _ _ _ _ _) as [[?|[]] ?]. }
  apply persist_ok_inv in Hper as (Hc & Hr & -> & ->).
  unfold ret. intros [= <- <-]. exists user, content, ext, w2. by repeat split.
Qed.

(** A run of [delete_user_avatar] that returns, read backwards. *)
Lemma delete_user_avatar_ok_inv user_id resp w w' :
  Api.delete_user_avatar settings os env user_id w = (inr resp, w') ->
  exists user c old,
    users w !! user_id = Some user /\ avatar_path user = Some (String c old) /\
    commit_error env = None /\ refresh_error env = None /\
    w' = committed user_id (mkUser (username user) None)
           (removed os (Storage.abs_path settings os (String c old)) w).
Proof.
  unfold Api.delete_user_avatar, bind, Session.get.
  destruct (users w !! user_id) as [user|]; [|done].
  destruct (avatar_path user) as [[|c old]|] eqn:Hold; [done| |done].
  destruct (Storage.delete_avatar settings os env (String c old) w)
    as [[e|[]] w1] eqn:Hdel; [done|].
  apply delete_avatar_ok_inv in Hdel as [_ ->].
  unfold Session.commit, Session.refresh.
  destruct (commit_error env) eqn:Hc; [done|].
  destruct (refresh_error env) eqn:Hr; [done|].
  simpl users. rewrite lookup_insert_eq. unfold ret. intros [= _ <-].
  exists user, c, old. by repeat split.
Qed.

(** A run of [upload_user_avatar] that surfaces the persistence error,
    read backwards. *)
Lemma upload_user_avatar_persist_failed_inv user_id file e w w' :
  Api.upload_user_avatar settings os env user_id file w =
    (inl (HTTPException 500 (UpdateUserFailed e)), w') ->
  exists user content ext w2 w3,
    users w !! user_id = Some user /\ Api.file_read file = inr content /\
    Api.delete_old_avatar settings os env user
      (uploaded settings os env user_id ext content w) = (inr tt, w2) /\
    Api.persist_avatar_path env user_id user (avatar_rel env user_id ext) w2 = (inl e, w3) /\
    Storage.delete_avatar settings os env (avatar_rel env user_id ext) w3 = (inr tt, w').
Proof.
  unfold Api.upload_user_avatar, bind, Session.get.
  destruct (users w !! user_id) as [user|] eqn:Huser; [|done].
  destruct (Api.file_read file) as [msg0|content] eqn:Hread; [done|].
  unfold ret at 1.
  destruct (Storage.upload_avatar settings os env user_id content w)
    as [[e1|new] w1] eqn:Hup.
  { intros [= -> <-]. exfalso.
    apply upload_avatar_err_inv in Hup as [[Hv _] | [(msg & [=] & _) | (e0 & [=] & _)]].
    by apply validate_err_inv in Hv as (_ & d & [=] & _). }
  pose proof Hup
    as (m & ext & _ & _ & _ & _ & Hext & -> & _ & _ & _ & _ & ->)%upload_avatar_ok_inv.
  destruct (Api.delete_old_avatar settings os env user _) as [[e2|[]] w2] eqn:Hold.
  { intros [= -> <-]. exfalso.
    apply delete_old_avatar_err_inv in Hold as (_ & c & old & _ & Hd).
    by apply delete_avatar_err_inv in Hd as (_ & [[_ [=]] | [_ [e0 [=]]]]). }
  unfold try_except.
  destruct (Api.persist_avatar_path env user_id user (avatar_rel env user_id ext) w2)
    as [[e3|u] w3] eqn:Hper; [|done].
  unfold raise.
  destruct (Storage.delete_avatar settings os env (avatar_rel env user_id ext) w3)
    as [[e4|[]] w4] eqn:Hdel.
  { intros [= -> <-]. exfalso.
    by apply delete_avatar_err_inv in Hdel as (_ & [[_ [=]] | [_ [e0 [=]]]]). }
  intros [= <- <-]. exists user, content, ext, w2, w3. by repeat split.
Qed.

(** A path that begins with a separator is joined to nothing. *)
Lemma delete_avatar_rooted rel w :
  starts_with_sep os rel = true ->
  Storage.abs_path settings os rel = rel /\
  (Os.is_file os rel w = true -> Os.is_dir os rel w = false ->
   remove_error env rel = None ->
   Storage.delete_avatar settings os env rel w = (inr tt, removed os rel w)).
Proof.
  intros Hsep.
  assert (Storage.abs_path settings os rel = rel) as Habs
    by (unfold Storage.abs_path, os_path_join; by rewrite Hsep).
  split; [done|]. intros Hf Hd He.
  rewrite <- Habs at 2. apply delete_avatar_ok; by rewrite Habs.
Qed.

(** Taking a file away brings nothing into being. *)
Lemma removed_path_exists path other w :
  Os.path_exists os path w = false ->
  Os.path_exists os path (removed os other w) = false.
Proof.
  unfold Os.path_exists, Os.is_file, Os.is_dir, removed. simpl.
  intros [Hf Hd]%orb_false_iff. rewrite Hd, orb_false_r.
  apply bool_decide_eq_false_1 in Hf. apply bool_decide_eq_false_2.
  intros [x Hx]. apply Hf. exists x.
  by apply lookup_delete_Some in Hx as [_ Hx].
Qed.

End WithSettings.

Lemma avatar_rel_cons env user_id ext :
  avatar_rel env user_id ext =
  String "a" ("vatars/" +:+ str_int user_id +:+ "/" +:+ Storage.file_name env ext).
Proof. reflexivity. Qed.

(** Rows that differ at most in the avatar path of one user keep the user
    names apart. *)
Lemma unique_usernames_insert user_id user path w w' :
  users w !! user_id = Some user ->
  users w' = <[user_id := mkUser (username user) path]> (users w) ->
  unique_usernames w -> unique_usernames w'.
Proof.
  intros Huser Hw' Huniq i j u v. rewrite Hw'.
  assert (forall k x, <[user_id := mkUser (username user) path]> (users w) !! k = Some x ->
                      exists y, users w !! k = Some y /\ username y = username x) as Hsame.
  { intros k x. destruct (decide (user_id = k)) as [<-|Hne].
    - rewrite lookup_insert_eq. intros [= <-]. eauto.
    - rewrite lookup_insert_ne by done. eauto. }
  intros (u0 & Hu0 & <-)%Hsame (v0 & Hv0 & <-)%Hsame. by apply Huniq.
Qed.

End MoreFacts.

Import MoreFacts.

(* ===================================================================== *)
(** * Further properties of the code                                      *)
(* ===================================================================== *)

Import PyStrFacts PathFacts StorageFacts ApiFacts.

(** X1. [create_user] answers 400 for a taken name exactly when some row
    carries the name of the request, and then nothing is changed. *)
Theorem create_user_duplicate env assigned_id id user w :
  ((exists i u, users w !! i = Some u /\ username u = username user) <->
   fst (Users.create_user env assigned_id id user w) = inl Users.UsernameExists) /\
  (fst (Users.create_user env assigned_id id user w) = inl Users.UsernameExists ->
   snd (Users.create_user env assigned_id id user w) = w /\
   Users.create_status (fst (Users.create_user env assigned_id id user w)) = 400%Z).
Proof.
  unfold Users.create_user.
  destruct (Users.select_by_username (username user) w) as [[i u]|] eqn:Hsel.
  - apply select_by_username_Some in Hsel. split; [|done].
    split; [done | intros _; by eauto].
  - pose proof (proj1 (select_by_username_None _ _) Hsel) as Hnone.
    assert (fst (match users w !! default assigned_id id with
                 | Some _ => (inl (Users.SessionError (PyException "IntegrityError")), w)
                 | None =>
                     match Session.commit env (default assigned_id id) user w with
                     | (inl e, w1) => (inl (Users.SessionError e), w1)
                     | (inr _, w1) =>
                         match Session.refresh env (default assigned_id id) user w1 with
                         | (inl e, w2) => (inl (Users.SessionError e), w2)
                         | (inr row, w2) => (inr (default assigned_id id, row), w2)
                         end
                     end
                 end) <> @inl _ (Z * User) Users.UsernameExists) as Hnot.
    { destruct (users w !! default assigned_id id); [done|].
      unfold Session.commit, Session.refresh.
      destruct (commit_error env); [done|].
      destruct (refresh_error env); [done|].
      simpl users. by rewrite lookup_insert_eq. }
    split; [|done]. split; [|done].
    intros (i & u & Hi & Hu). by destruct (Hnone i u Hi).
Qed.

(** X2. A [create_user] that returns has put the row of the request, as it
    came, under a key that was free (the [id] of the request, or else the
    key the database assigned).  No other row, file or directory changed, no
    row had the name before, and user names that were unique remain
    unique. *)
Theorem create_user_inserts env assigned_id id user w new_id row w' :
  Users.create_user env assigned_id id user w = (inr (new_id, row), w') ->
  new_id = default assigned_id id /\ row = user /\
  users w !! new_id = None /\
  (forall i u, users w !! i = Some u -> username u <> username user) /\
  users w' = <[new_id := user]> (users w) /\
  files w' = files w /\ dirs w' = dirs w /\
  (unique_usernames w -> unique_usernames w').
Proof.
  unfold Users.create_user.
  destruct (Users.select_by_username (username user) w) eqn:Hsel; [done|].
  pose proof (proj1 (select_by_username_None _ _) Hsel) as Hnone.
  destruct (users w !! default assigned_id id) eqn:Hfree; [done|].
  unfold Session.commit, Session.refresh.
  destruct (commit_error env); [done|].
  destruct (refresh_error env); [done|].
  simpl users. rewrite lookup_insert_eq. intros [= <- <- <-].
  repeat split; try done.
  intros Huniq i j u v. simpl users.
  destruct (decide (default assigned_id id = i)) as [<-|Hi];
    destruct (decide (default assigned_id id = j)) as [<-|Hj];
    rewrite ?lookup_insert_eq, ?lookup_insert_ne by done; try done.
  - intros [= <-] Hv Hname. by destruct (Hnone j v Hv).
  - intros Hu [= <-] Hname. by destruct (Hnone i u Hu).
  - apply Huniq.
Qed.

Lemma create_user_inserts_witness :
  exists w',
    Users.create_user Sample.env 8 None (mkUser "bob" None) Sample.world =
      (inr (8%Z, mkUser "bob" None), w') /\
    users w' = <[8%Z := mkUser "bob" None]> (users Sample.world).
Proof.
  pose (run := Users.create_user Sample.env 8 None (mkUser "bob" None) Sample.world).
  assert (run = (inr (8%Z, mkUser "bob" None), snd run)) as Hrun
    by (vm_compute; reflexivity).
  exists (snd run). split; [exact Hrun|].
  by destruct (create_user_inserts Sample.env 8 None (mkUser "bob" None) Sample.world
                8%Z (mkUser "bob" None) (snd run) Hrun) as (_ & _ & _ & _ & H & _).
Defined.

(** X3. The avatar endpoints never add, drop or rename a user: after any
    run of [upload_user_avatar] or [delete_user_avatar], returning or
    raising, the user table is the one before, or differs from it only in
    the avatar path of the row of [user_id]; user names that were unique
    remain unique. *)
Theorem avatar_endpoints_keep_users settings os env user_id w :
  (forall file r w',
     Api.upload_user_avatar settings os env user_id file w = (r, w') ->
     (users w' = users w \/
      exists user path, users w !! user_id = Some user /\
        users w' = <[user_id := mkUser (username user) path]> (users w)) /\
     (unique_usernames w -> unique_usernames w')) /\
  (forall r w',
     Api.delete_user_avatar settings os env user_id w = (r, w') ->
     (users w' = users w \/
      exists user path, users w !! user_id = Some user /\
        users w' = <[user_id := mkUser (username user) path]> (users w)) /\
     (unique_usernames w -> unique_usernames w')).
Proof.
  assert (forall w',
            (users w' = users w \/
             exists user path, users w !! user_id = Some user /\
               users w' = <[user_id := mkUser (username user) path]> (users w)) ->
            unique_usernames w -> unique_usernames w') as Huniq.
  { intros w' [Heq | (user & path & Huser & Heq)] Hu.
    - unfold unique_usernames. by rewrite Heq.
    - by eapply unique_usernames_insert. }
  split.
  - intros file r w' Hrun.
    match goal with |- ?D /\ _ => enough D as HD by (split; [exact HD | exact (Huniq _ HD)]) end.
    revert Hrun. unfold Api.upload_user_avatar, bind, Session.get.
    destruct (users w !! user_id) as [user|] eqn:Huser; [|intros [= _ <-]; by left].
    destruct (Api.file_read file) as [msg0|content]; [intros [= _ <-]; by left|].
    unfold ret at 1.
    destruct (Storage.upload_avatar settings os env user_id content w)
      as [r1 w1] eqn:Hup.
    apply upload_avatar_users in Hup.
    destruct r1 as [e1|new]; [intros [= _ <-]; by left|].
    destruct (Api.delete_old_avatar settings os env user w1) as [r2 w2] eqn:Hold.
    apply delete_old_avatar_users in Hold.
    destruct r2 as [e2|[]]; [intros [= _ <-]; left; congruence|].
    unfold try_except.
    destruct (Api.persist_avatar_path env user_id user new w2) as [[e3|u] w3] eqn:Hper.
    + apply persist_err_inv in Hper as (msg & _ & [[_ ->] | (_ & _ & ->)]);
        unfold raise;
        destruct (Storage.delete_avatar settings os env new _) as [r4 w4] eqn:Hdel;
        apply delete_avatar_users in Hdel as [Hdel _];
        destruct r4 as [e4|[]]; intros [= _ <-]; rewrite Hdel;
        simpl users; rewrite ?Hold, ?Hup;
        first [by left | right; by exists user, (Some new)].
    + apply persist_ok_inv in Hper as (_ & _ & _ & ->).
      unfold ret. intros [= _ <-]. right. exists user, (Some new).
      split; [done|]. simpl. by rewrite Hold, Hup.
  - intros r w' Hrun.
    match goal with |- ?D /\ _ => enough D as HD by (split; [exact HD | exact (Huniq _ HD)]) end.
    revert Hrun. unfold Api.delete_user_avatar, bind, Session.get.
    destruct (users w !! user_id) as [user|] eqn:Huser; [|intros [= _ <-]; by left].
    destruct (avatar_path user) as [[|c old]|];
      [intros [= _ <-]; by left| |intros [= _ <-]; by left].
    destruct (Storage.delete_avatar settings os env (String c old) w) as [r1 w1] eqn:Hdel.
    apply delete_avatar_users in Hdel as [Hdel _].
    destruct r1 as [e1|[]]; [intros [= _ <-]; by left|].
    unfold Session.commit, Session.refresh.
    destruct (commit_error env); [intros [= _ <-]; by left|].
    destruct (refresh_error env);
      [|simpl users; rewrite lookup_insert_eq; unfold ret];
      intros [= _ <-]; right; exists user, None; split; try done; simpl; by rewrite Hdel.
Qed.

(** X4. [get_user] agrees with the upload that went before: after a run of
    [upload_user_avatar] that returns, [get_user] for the same user answers
    with the user's name and with the very path and URL of the upload
    response, and changes nothing. *)
Theorem get_user_after_upload settings os env user_id file w resp w' :
  Api.upload_user_avatar settings os env user_id file w = (inr resp, w') ->
  exists user,
    users w !! user_id = Some user /\
    Users.get_user settings user_id w' =
      (inr (Users.mkUserResponse user_id (username user) (Api.up_avatar_path resp)
              (Some (Api.up_avatar_url resp))), w').
Proof.
  intros (user & content & ext & w2 & Huser & _ & _ & _ & _ & _ & _ & -> & ->)
    %upload_user_avatar_ok_inv.
  exists user. split; [done|].
  unfold Users.get_user, bind, Session.get, committed. cbn [users].
  rewrite lookup_insert_eq. simpl. by rewrite avatar_rel_cons.
Qed.

Lemma get_user_after_upload_witness :
  exists resp w',
    Api.upload_user_avatar Sample.settings Posix Sample.env 7 (Sample.upload Sample.png)
      Sample.world = (inr resp, w') /\
    Users.get_user Sample.settings 7 w' =
      (inr (Users.mkUserResponse 7 "alice" (Api.up_avatar_path resp)
              (Some (Api.up_avatar_url resp))), w').
Proof.
  pose (run := Api.upload_user_avatar Sample.settings Posix Sample.env 7
                 (Sample.upload Sample.png) Sample.world).
  destruct (fst run) as [e|resp] eqn:Hfst; [by vm_compute in Hfst|].
  assert (run = (inr resp, snd run)) as Hrun
    by (rewrite <- Hfst; apply surjective_pairing).
  exists resp, (snd run). split; [exact Hrun|].
  destruct (get_user_after_upload Sample.settings Posix Sample.env 7
              (Sample.upload Sample.png) Sample.world resp (snd run) Hrun) as (user & Huser & Hget).
  assert (users Sample.world !! 7%Z = Some (mkUser "alice" None)) as Hrow
    by (vm_compute; reflexivity).
  rewrite Hrow in Huser. by injection Huser as <-.
Defined.

(** X5. [get_user] agrees with the deletion that went before: after a run
    of [delete_user_avatar] that returns, [get_user] for the same user
    answers with the user's name, no avatar path and no URL. *)
Theorem get_user_after_delete settings os env user_id w resp w' :
  Api.delete_user_avatar settings os env user_id w = (inr resp, w') ->
  exists user,
    users w !! user_id = Some user /\
    Users.get_user settings user_id w' =
      (inr (Users.mkUserResponse user_id (username user) None None), w').
Proof.
  intros (user & c & old & Huser & _ & _ & _ & ->)%delete_user_avatar_ok_inv.
  exists user. split; [done|].
  unfold Users.get_user, bind, Session.get, committed. cbn [users].
  by rewrite lookup_insert_eq.
Qed.

Lemma get_user_after_delete_witness :
  exists resp w',
    Api.delete_user_avatar Sample.settings Posix Sample.env 7 Sample.world_with_avatar
      = (inr resp, w') /\
    Users.get_user Sample.settings 7 w' =
      (inr (Users.mkUserResponse 7 "alice" None None), w').
Proof.
  pose (run := Api.delete_user_avatar Sample.settings Posix Sample.env 7
                 Sample.world_with_avatar).
  destruct (fst run) as [e|resp] eqn:Hfst; [by vm_compute in Hfst|].
  assert (run = (inr resp, snd run)) as Hrun
    by (rewrite <- Hfst; apply surjective_pairing).
  exists resp, (snd run). split; [exact Hrun|].
  destruct (get_user_after_delete Sample.settings Posix Sample.env 7
              Sample.world_with_avatar resp (snd run) Hrun) as (user & Huser & Hget).
  assert (users Sample.world_with_avatar !! 7%Z =
          Some (mkUser "alice" (Some Sample.old_rel))) as Hrow
    by (vm_compute; reflexivity).
  rewrite Hrow in Huser. by injection Huser as <-.
Defined.

(** X6. [delete_avatar] is not idempotent: once a call has returned, the
    same path is gone, and every further call for it raises the 404 of a
    missing avatar file and changes nothing, whatever the system answers. *)
Theorem delete_avatar_twice settings os env rel w w1 :
  Storage.delete_avatar settings os env rel w = (inr tt, w1) ->
  Os.path_exists os (Storage.abs_path settings os rel) w1 = false /\
  forall env',
    Storage.delete_avatar settings os env' rel w1 =
      (inl (HTTPException 404 AvatarFileMissing), w1).
Proof.
  intros Hgone%delete_avatar_ok_gone. split; [done|].
  intros env'. by apply delete_avatar_missing.
Qed.

Lemma delete_avatar_twice_witness :
  exists w1,
    Storage.delete_avatar Sample.settings Posix Sample.env Sample.old_rel
      Sample.world_with_avatar = (inr tt, w1) /\
    Storage.delete_avatar Sample.settings Posix Sample.env Sample.old_rel w1 =
      (inl (HTTPException 404 AvatarFileMissing), w1).
Proof.
  pose (run := Storage.delete_avatar Sample.settings Posix Sample.env Sample.old_rel
                 Sample.world_with_avatar).
  assert (run = (inr tt, snd run)) as Hrun by (vm_compute; reflexivity).
  exists (snd run). split; [exact Hrun|].
  by destruct (delete_avatar_twice Sample.settings Posix Sample.env Sample.old_rel
                Sample.world_with_avatar (snd run) Hrun) as [_ H].
Defined.

(** X7. [delete_user_avatar] removes the file before it commits, outside
    any [try]: when the commit raises, the exception leaves the endpoint
    (status 500) with the file removed and the row still holding the path.
    From then on every call of [delete_user_avatar] for the user raises the
    404 of a missing avatar file and changes nothing. *)
Theorem delete_user_avatar_commit_failure settings os env user_id w user c old msg w1 :
  users w !! user_id = Some user ->
  avatar_path user = Some (String c old) ->
  Storage.delete_avatar settings os env (String c old) w = (inr tt, w1) ->
  commit_error env = Some msg ->
  Api.delete_user_avatar settings os env user_id w = (inl (PyException msg), w1) /\
  http_status (@inl exn Api.DeleteResponse (PyException msg)) = 500%Z /\
  users w1 = users w /\
  Os.path_exists os (Storage.abs_path settings os (String c old)) w1 = false /\
  forall env',
    Api.delete_user_avatar settings os env' user_id w1 =
      (inl (HTTPException 404 AvatarFileMissing), w1).
Proof.
  intros Huser Hpath Hdel Hcommit.
  pose proof (delete_avatar_users _ _ _ _ _ _ _ Hdel) as [Husers _].
  pose proof (delete_avatar_ok_gone _ _ _ _ _ _ Hdel) as Hgone.
  repeat split; try done.
  - unfold Api.delete_user_avatar, bind, Session.get.
    rewrite Huser, Hpath, Hdel. unfold Session.commit. by rewrite Hcommit.
  - intros env'. unfold Api.delete_user_avatar, bind, Session.get.
    rewrite Husers, Huser, Hpath. by rewrite delete_avatar_missing.
Qed.

(** X8. A replace whose commit raises costs the user the avatar: when the
    row held a path and [upload_user_avatar] surfaces the persistence error
    after a failed commit, the row is as before, nothing is left at the old
    path, [get_user] still answers with the old path and its URL, and every
    call of [delete_user_avatar] for the user raises the 404 of a missing
    avatar file. *)
Theorem failed_replace_loses_avatar settings os env user_id file w user c old msg e w' :
  users w !! user_id = Some user ->
  avatar_path user = Some (String c old) ->
  commit_error env = Some msg ->
  Api.upload_user_avatar settings os env user_id file w =
    (inl (HTTPException 500 (UpdateUserFailed e)), w') ->
  users w' = users w /\
  Os.path_exists os (Storage.abs_path settings os (String c old)) w' = false /\
  Users.get_user settings user_id w' =
    (inr (Users.mkUserResponse user_id (username user) (Some (String c old))
            (Some (Storage.get_avatar_url settings (String c old)))), w') /\
  forall env',
    Api.delete_user_avatar settings os env' user_id w' =
      (inl (HTTPException 404 AvatarFileMissing), w').
Proof.
  intros Huser Hpath Hcommit
    (user0 & content & ext & w2 & w3 & Huser0 & _ & Hold & Hper & Hdel)
    %upload_user_avatar_persist_failed_inv.
  rewrite Huser in Huser0. injection Huser0 as <-.
  apply persist_err_inv in Hper as (msg0 & _ & [[_ ->] | (Hnone & _)]); [|congruence].
  pose proof (delete_old_avatar_users _ _ _ _ _ _ _ Hold) as Hu2.
  pose proof (delete_avatar_users _ _ _ _ _ _ _ Hdel) as [Hu4 _].
  assert (users w' = users w) as Husers by (by rewrite Hu4, Hu2).
  unfold Api.delete_old_avatar in Hold. rewrite Hpath in Hold.
  apply delete_avatar_ok_gone in Hold.
  apply delete_avatar_ok_inv in Hdel as [_ ->].
  assert (Os.path_exists os (Storage.abs_path settings os (String c old))
            (removed os (Storage.abs_path settings os (avatar_rel env user_id ext)) w2)
          = false) as Hgone by (by apply removed_path_exists).
  repeat split; try done.
  - unfold Users.get_user, bind, Session.get. by rewrite Husers, Huser, Hpath.
  - intros env'. unfold Api.delete_user_avatar, bind, Session.get.
    rewrite Husers, Huser, Hpath. by rewrite delete_avatar_missing.
Qed.

Lemma delete_user_avatar_commit_failure_witness :
  exists w1,
    Api.delete_user_avatar Sample.settings Posix Sample.env_commit_fails 7
      Sample.world_with_avatar = (inl (PyException "OperationalError"), w1) /\
    Api.delete_user_avatar Sample.settings Posix Sample.env 7 w1 =
      (inl (HTTPException 404 AvatarFileMissing), w1).
Proof.
  pose (del := Storage.delete_avatar Sample.settings Posix Sample.env_commit_fails
                 Sample.old_rel Sample.world_with_avatar).
  exists (snd del).
  destruct (delete_user_avatar_commit_failure Sample.settings Posix
              Sample.env_commit_fails 7 Sample.world_with_avatar
              (mkUser "alice" (Some Sample.old_rel)) "a"%char
              "vatars/7/11111111-1111-4111-8111-111111111111.jpg"
              "OperationalError" (snd del))
    as (Hrun & _ & _ & _ & Hretry); try (vm_compute; reflexivity).
  split; [exact Hrun | apply Hretry].
Defined.

Lemma failed_replace_loses_avatar_witness :
  let run := Api.upload_user_avatar Sample.settings Posix Sample.env_commit_fails 7
               (Sample.upload Sample.png) Sample.world_with_avatar in
  users (snd run) = users Sample.world_with_avatar /\
  Api.delete_user_avatar Sample.settings Posix Sample.env 7 (snd run) =
    (inl (HTTPException 404 AvatarFileMissing), snd run).
Proof.
  intros run.
  destruct (failed_replace_loses_avatar Sample.settings Posix Sample.env_commit_fails 7
              (Sample.upload Sample.png) Sample.world_with_avatar
              (mkUser "alice" (Some Sample.old_rel)) "a"%char
              "vatars/7/11111111-1111-4111-8111-111111111111.jpg"
              "OperationalError" (PyException "OperationalError") (snd run))
    as (Husers & _ & _ & Hdel); try (vm_compute; reflexivity).
  split; [exact Husers | apply Hdel].
Defined.

(** X11. A stored path that begins with a separator is not looked up below
    the root: for a root without drive, [delete_avatar] takes the path as it
    is, and removes the file at that place wherever it lies.  (Behind a root
    with a drive, Windows keeps the drive of the root in front of the
    path.) *)
Theorem stored_absolute_path_escapes_root settings os env rel w :
  has_drive os (str_replace "avatars" "" (UPLOAD_DIR settings)) = false ->
  starts_with_sep os rel = true ->
  Storage.abs_path settings os rel = rel /\
  (Os.is_file os rel w = true -> Os.is_dir os rel w = false ->
   remove_error env rel = None ->
   Storage.delete_avatar settings os env rel w = (inr tt, removed os rel w) /\
   files (removed os rel w) !! Os.fs_key os rel = None).
Proof.
  intros _ Hsep. destruct (delete_avatar_rooted settings os env rel w Hsep) as [Habs Hdel].
  split; [done|]. intros Hf Hd He. split; [by apply Hdel|].
  simpl. apply lookup_delete_eq.
Qed.

Lemma stored_absolute_path_escapes_root_witness :
  Storage.delete_avatar Sample.settings Posix Sample.env "/etc/hosts"
    MoreSamples.world_with_hosts =
    (inr tt, removed Posix "/etc/hosts" MoreSamples.world_with_hosts).
Proof.
  destruct (stored_absolute_path_escapes_root Sample.settings Posix Sample.env
              "/etc/hosts" MoreSamples.world_with_hosts eq_refl eq_refl) as [_ H].
  apply H; vm_compute; reflexivity.
Defined.

(** X12. The avatar path of a new user is taken from the request as it
    comes, so the two endpoints compose to remove any file: after
    [create_user] returned for a request whose avatar path begins with a
    separator, [delete_user_avatar] for the new user removes the file at
    that very path and answers 200 (for a root without drive, as in X11). *)
Theorem created_user_deletes_any_file settings os env assigned_id id user rel w new_id row w1 :
  has_drive os (str_replace "avatars" "" (UPLOAD_DIR settings)) = false ->
  Users.create_user env assigned_id id user w = (inr (new_id, row), w1) ->
  avatar_path user = Some rel ->
  starts_with_sep os rel = true ->
  Os.is_file os rel w = true -> Os.is_dir os rel w = false ->
  remove_error env rel = None ->
  exists w2,
    Api.delete_user_avatar settings os env new_id w1 =
      (inr (Api.mkDeleteResponse Api.AvatarDeleted new_id), w2) /\
    files w2 = delete (Os.fs_key os rel) (files w) /\
    users w2 !! new_id = Some (mkUser (username user) None).
Proof.
  intros _. unfold Users.create_user.
  destruct (Users.select_by_username (username user) w); [done|].
  destruct (users w !! default assigned_id id); [done|].
  unfold Session.commit, Session.refresh.
  destruct (commit_error env) eqn:Hc; [done|].
  destruct (refresh_error env) eqn:Hr; [done|].
  cbn [users]. rewrite lookup_insert_eq. intros [= <- <- <-] Hpath Hsep Hf Hd He.
  destruct rel as [|c rel]; [done|].
  destruct user as [name path]. simpl in Hpath. subst path. cbn [avatar_path username].
  set (w1 := mkWorld _ _ _ _).
  destruct (delete_avatar_rooted settings os env (String c rel) w1 Hsep) as [Habs Hdel].
  specialize (Hdel Hf Hd He).
  eexists. split.
  - unfold Api.delete_user_avatar, bind, Session.get. subst w1. cbn [users].
    rewrite lookup_insert_eq. cbn [avatar_path]. rewrite Hdel.
    unfold Session.commit, Session.refresh. rewrite Hc, Hr.
    cbn [users]. rewrite lookup_insert_eq. reflexivity.
  - split; [reflexivity|]. cbn [users]. apply lookup_insert_eq.
Qed.

Lemma created_user_deletes_any_file_witness :
  exists w1 w2,
    Users.create_user Sample.env 1 None (mkUser "mallory" (Some "/etc/hosts"))
      MoreSamples.world_with_hosts = (inr (1%Z, mkUser "mallory" (Some "/etc/hosts")), w1) /\
    Api.delete_user_avatar Sample.settings Posix Sample.env 1 w1 =
      (inr (Api.mkDeleteResponse Api.AvatarDeleted 1), w2) /\
    files w2 = delete "/etc/hosts" (files MoreSamples.world_with_hosts).
Proof.
  pose (run := Users.create_user Sample.env 1 None (mkUser "mallory" (Some "/etc/hosts"))
                 MoreSamples.world_with_hosts).
  assert (run = (inr (1%Z, mkUser "mallory" (Some "/etc/hosts")), snd run)) as Hrun
    by (vm_compute; reflexivity).
  destruct (created_user_deletes_any_file Sample.settings Posix Sample.env 1 None
              (mkUser "mallory" (Some "/etc/hosts")) "/etc/hosts"
              MoreSamples.world_with_hosts 1%Z _ (snd run) eq_refl Hrun)
    as (w2 & Hdel & Hfiles & _); try (vm_compute; reflexivity).
  exists (snd run), w2. auto.
Defined.

(** X13. The directory mounted at [/static] is the root [delete_avatar]
    uses.  With the layout [<root>/avatars] it is [<root>/], and the path a
    successful upload returned leads, below it, to a file that holds the
    uploaded bytes: what [get_avatar_url] points to is what was uploaded. *)
Theorem static_mount_serves_upload settings os env root user_id content w p w1 :
  avatars_layout settings root ->
  Storage.upload_avatar settings os env user_id content w = (inr p, w1) ->
  Users.static_directory settings = root +:+ "/" /\
  Users.static_file settings os p w1 = Some content /\
  Storage.get_avatar_url settings p = BASE_URL settings +:+ "/static/" +:+ p.
Proof.
  intros Hlay Hup. split; [|split; [|reflexivity]].
  - destruct Hlay as [Hdir Hroot]. unfold Users.static_directory.
    rewrite Hdir. by apply str_replace_avatars_root.
  - apply upload_avatar_ok_inv in Hup
      as (m & ext & _ & _ & _ & _ & Hext & -> & _ & _ & _ & _ & ->).
    unfold Users.static_file, Users.static_directory.
    change (os_path_join os (str_replace "avatars" "" (UPLOAD_DIR settings))
              (avatar_rel env user_id ext))
      with (Storage.abs_path settings os (avatar_rel env user_id ext)).
    rewrite (abs_path_of_upload settings os env root user_id ext Hlay Hext).
    simpl files. apply lookup_insert_eq.
Qed.

Lemma static_mount_serves_upload_witness :
  exists p w1,
    Storage.upload_avatar Sample.settings Windows Sample.env 7 Sample.png Sample.world =
      (inr p, w1) /\
    Users.static_file Sample.settings Windows p w1 = Some Sample.png.
Proof.
  pose (up := Storage.upload_avatar Sample.settings Windows Sample.env 7 Sample.png
                Sample.world).
  assert (up = (inr "avatars/7/00000000-0000-4000-8000-000000000000.png", snd up)) as Hup
    by (vm_compute; reflexivity).
  exists "avatars/7/00000000-0000-4000-8000-000000000000.png", (snd up).
  split; [exact Hup|].
  by destruct (static_mount_serves_upload Sample.settings Windows Sample.env "uploads" 7
                 Sample.png Sample.world _ (snd up) ltac:(split; reflexivity) Hup)
    as (_ & H & _).
Defined.

Import NameFacts.

Lemma file_name_inj env1 ext1 env2 ext2 :
  Storage.file_name env1 ext1 = Storage.file_name env2 ext2 ->
  uuid4_int (os_urandom env1) = uuid4_int (os_urandom env2) /\ ext1 = ext2.
Proof.
  unfold Storage.file_name.
  intros [Hu He]%str_app_inv_char; try (apply uuid_char_no_dot, str_uuid_chars).
  split; [|done]. by apply str_uuid_inj in Hu; try apply uuid4_int_bound.
Qed.

Lemma avatar_rel_inj env1 user1 ext1 env2 user2 ext2 :
  avatar_rel env1 user1 ext1 = avatar_rel env2 user2 ext2 ->
  user1 = user2 /\ uuid4_int (os_urandom env1) = uuid4_int (os_urandom env2) /\
  ext1 = ext2.
Proof.
  unfold avatar_rel. intros H%str_app_inv_head.
  apply str_app_inv_char in H as [Hu Hf];
    try (apply name_char_no_slash, str_int_name).
  split; [by apply str_int_inj|]. by apply file_name_inj.
Qed.

(** X14. The path [upload_avatar] returns tells the user and the UUID
    apart: two uploads, on whatever deployments, return the same path only
    for the same user id, the same UUID drawn by [uuid4] (as a 128-bit
    value) and the same extension.  So avatars of different users, and
    uploads with different UUIDs, never share a path. *)
Theorem returned_paths_apart
    settings1 os1 env1 user1 content1 w1 w1'
    settings2 os2 env2 user2 content2 w2 w2' p :
  Storage.upload_avatar settings1 os1 env1 user1 content1 w1 = (inr p, w1') ->
  Storage.upload_avatar settings2 os2 env2 user2 content2 w2 = (inr p, w2') ->
  user1 = user2 /\
  uuid4_int (os_urandom env1) = uuid4_int (os_urandom env2) /\
  exists mime1 mime2,
    magic_from_buffer env1 content1 = inr mime1 /\
    magic_from_buffer env2 content2 = inr mime2 /\
    Storage.mime_to_ext !! mime1 = Storage.mime_to_ext !! mime2.
Proof.
  intros (m1 & ext1 & _ & Hm1 & _ & Hx1 & _ & -> & _)%upload_avatar_ok_inv
         (m2 & ext2 & _ & Hm2 & _ & Hx2 & _ & Hp & _)%upload_avatar_ok_inv.
  apply avatar_rel_inj in Hp as (-> & Hu & ->).
  repeat split; try done. exists m1, m2. by rewrite Hx1, Hx2.
Qed.

Lemma returned_paths_apart_witness :
  exists p1 w1 p2 w2,
    Storage.upload_avatar Sample.settings Posix Sample.env 7 Sample.png Sample.world =
      (inr p1, w1) /\
    Storage.upload_avatar Sample.settings Posix MoreSamples.env_other_draw 7 Sample.png
      Sample.world = (inr p2, w2) /\
    p1 <> p2.
Proof.
  pose (up1 := Storage.upload_avatar Sample.settings Posix Sample.env 7 Sample.png
                 Sample.world).
  pose (up2 := Storage.upload_avatar Sample.settings Posix MoreSamples.env_other_draw 7
                 Sample.png Sample.world).
  assert (up1 = (inr "avatars/7/00000000-0000-4000-8000-000000000000.png", snd up1)) as H1
    by (vm_compute; reflexivity).
  assert (up2 = (inr "avatars/7/00000000-0000-4000-8000-000000000001.png", snd up2)) as H2
    by (vm_compute; reflexivity).
  exists "avatars/7/00000000-0000-4000-8000-000000000000.png", (snd up1),
         "avatars/7/00000000-0000-4000-8000-000000000001.png", (snd up2).
  split; [exact H1|]. split; [exact H2|].
  intros Heq. rewrite <- Heq in H2.
  destruct (returned_paths_apart Sample.settings Posix Sample.env 7 Sample.png Sample.world
              (snd up1) Sample.settings Posix MoreSamples.env_other_draw 7 Sample.png
              Sample.world (snd up2) _ H1 H2) as (_ & Hu & _).
  by vm_compute in Hu.
Defined.

(** The paths of [upload_avatar] for an upload directory that is not empty
    and does not end in a separator, and what [delete_avatar] makes of the
    returned path when [avatars] does not occur in the directory. *)
Lemma paths_without_avatars settings os env user_id ext :
  str_contains "avatars" (UPLOAD_DIR settings) = false ->
  ext = "jpg" \/ ext = "png" \/ ext = "gif" ->
  exists prefix,
    Storage.abs_path settings os (avatar_rel env user_id ext) =
      prefix +:+ avatar_rel env user_id ext /\
    Storage.user_dir settings os user_id = prefix +:+ str_int user_id /\
    Storage.file_path settings os env user_id ext =
      prefix +:+ str_int user_id +:+ os_sep os +:+ Storage.file_name env ext.
Proof.
  intros Habsent Hext.
  exists (if String.eqb (UPLOAD_DIR settings) "" || ends_with_sep os (UPLOAD_DIR settings)
          then UPLOAD_DIR settings else UPLOAD_DIR settings +:+ os_sep os).
  unfold Storage.abs_path, Storage.file_path, Storage.user_dir.
  rewrite (str_replace_absent _ _ _ Habsent).
  rewrite (os_path_join_name os (UPLOAD_DIR settings) (str_int user_id))
    by apply str_int_name.
  assert (os_path_join os (UPLOAD_DIR settings) (avatar_rel env user_id ext) =
          if String.eqb (UPLOAD_DIR settings) "" || ends_with_sep os (UPLOAD_DIR settings)
          then UPLOAD_DIR settings +:+ avatar_rel env user_id ext
          else UPLOAD_DIR settings +:+ os_sep os +:+ avatar_rel env user_id ext) as ->.
  { unfold os_path_join. rewrite avatar_rel_cons. simpl starts_with_sep.
    by replace (is_sep os "a") with false by (by destruct os). }
  destruct (str_int_cons user_id) as (c & s & E).
  pose proof (str_int_name user_id) as Hn. rewrite E in Hn |- *.
  pose proof (file_name_chars env ext (ext_name_chars ext Hext)) as Hf.
  destruct (_ || _).
  - repeat split.
    rewrite (os_path_join_after_name os (UPLOAD_DIR settings) c s _ Hn Hf).
    by rewrite str_app_assoc.
  - rewrite <- (str_app_assoc (UPLOAD_DIR settings) (os_sep os) (String c s)).
    repeat split; [by rewrite str_app_assoc|].
    rewrite (os_path_join_after_name os (UPLOAD_DIR settings +:+ os_sep os) c s _ Hn Hf).
    by rewrite !str_app_assoc.
Qed.

(** X15. The layout matters: when [avatars] does not occur in the upload
    directory, [delete_avatar] looks for a returned path at a place other
    than the one [upload_avatar] wrote and other than the user directory.
    If nothing was at that place before, deleting a freshly uploaded avatar
    raises the 404 of a missing avatar file, whatever the system answers,
    and the uploaded file stays where it is. *)
Theorem upload_then_delete_without_avatars settings os env user_id content w p w1 :
  str_contains "avatars" (UPLOAD_DIR settings) = false ->
  Storage.upload_avatar settings os env user_id content w = (inr p, w1) ->
  Os.path_exists os (Storage.abs_path settings os p) w = false ->
  exists ext,
    Os.fs_key os (Storage.abs_path settings os p) <>
      Os.fs_key os (Storage.file_path settings os env user_id ext) /\
    files w1 !! Os.fs_key os (Storage.file_path settings os env user_id ext) = Some content /\
    forall env',
      Storage.delete_avatar settings os env' p w1 =
        (inl (HTTPException 404 AvatarFileMissing), w1).
Proof.
  intros Habsent Hup Hfree.
  apply upload_avatar_ok_inv in Hup
    as (m & ext & _ & _ & _ & _ & Hext & -> & _ & _ & _ & _ & ->).
  destruct (paths_without_avatars settings os env user_id ext Habsent Hext)
    as (prefix & Habs & Hdir & Hfile).
  destruct (str_int_head user_id) as (c & s & E & Hc).
  assert (forall t, Os.fs_key os (Storage.abs_path settings os (avatar_rel env user_id ext)) <>
                    Os.fs_key os (prefix +:+ str_int user_id +:+ t)) as Hne.
  { intros t. rewrite Habs, !fs_key_app. intros H%str_app_inv_head.
    rewrite avatar_rel_cons, E in H.
    pose proof (name_char_not_slash c (int_char_name c Hc)) as Hslash.
    destruct os; simpl in H; rewrite ?Hslash in H; injection H as <- _;
      by vm_compute in Hc. }
  exists ext. split; [rewrite Hfile; apply Hne|].
  split; [simpl files; apply lookup_insert_eq|].
  intros env'. apply delete_avatar_missing.
  apply orb_false_iff in Hfree as [Hf Hd].
  unfold Os.path_exists, Os.is_file, Os.is_dir, uploaded in *. simpl.
  apply orb_false_iff. split; apply bool_decide_eq_false_2.
  - apply bool_decide_eq_false_1 in Hf.
    rewrite lookup_insert_ne; [done|]. rewrite Hfile. intros H. exact (Hne _ (eq_sym H)).
  - apply bool_decide_eq_false_1 in Hd.
    intros [H%elem_of_singleton | H]%elem_of_union; [|done].
    rewrite Hdir, <- (str_app_nil_r (str_int user_id)) in H.
    exact (Hne "" H).
Qed.

Lemma upload_then_delete_without_avatars_witness :
  exists p w1,
    Storage.upload_avatar MoreSamples.pictures_settings Posix Sample.env 7 Sample.png
      Sample.world = (inr p, w1) /\
    Storage.delete_avatar MoreSamples.pictures_settings Posix Sample.env p w1 =
      (inl (HTTPException 404 AvatarFileMissing), w1).
Proof.
  pose (up := Storage.upload_avatar MoreSamples.pictures_settings Posix Sample.env 7
                Sample.png Sample.world).
  assert (up = (inr "avatars/7/00000000-0000-4000-8000-000000000000.png", snd up)) as Hup
    by (vm_compute; reflexivity).
  exists "avatars/7/00000000-0000-4000-8000-000000000000.png", (snd up).
  split; [exact Hup|].
  destruct (upload_then_delete_without_avatars MoreSamples.pictures_settings Posix
              Sample.env 7 Sample.png Sample.world _ (snd up)
              ltac:(vm_compute; reflexivity) Hup ltac:(vm_compute; reflexivity))
    as (ext & _ & _ & Hdel).
  apply Hdel.
Defined.

(** For an upload directory that is not empty and does not end in a
    separator, the place of a file on the disk tells its name. *)
Lemma file_path_key_inj settings os env1 env2 user_id ext1 ext2 :
  UPLOAD_DIR settings <> "" ->
  ends_with_sep os (UPLOAD_DIR settings) = false ->
  ext1 = "jpg" \/ ext1 = "png" \/ ext1 = "gif" ->
  ext2 = "jpg" \/ ext2 = "png" \/ ext2 = "gif" ->
  Os.fs_key os (Storage.file_path settings os env1 user_id ext1) =
  Os.fs_key os (Storage.file_path settings os env2 user_id ext2) ->
  Storage.file_name env1 ext1 = Storage.file_name env2 ext2.
Proof.
  intros Hne Hend H1 H2.
  rewrite !file_path_plain by done. rewrite !fs_key_app.
  intros H%str_app_inv_head%str_app_inv_head.
  by rewrite !fs_key_name in H by (by apply file_name_chars, ext_name_chars).
Qed.

(** X16. Replacing an avatar with the layout [<root>/avatars]: when two
    runs of [upload_user_avatar] for one user return one after the other and
    [uuid4] drew different UUIDs, the two responses carry different paths;
    after the second run the mount serves nothing at the first path and the
    second upload's bytes at the second path, and the row holds the second
    path. *)
Theorem second_upload_replaces_first
    settings os env1 env2 root user_id file1 file2 w resp1 w1 resp2 w2 :
  avatars_layout settings root ->
  Api.upload_user_avatar settings os env1 user_id file1 w = (inr resp1, w1) ->
  Api.upload_user_avatar settings os env2 user_id file2 w1 = (inr resp2, w2) ->
  uuid4_int (os_urandom env1) <> uuid4_int (os_urandom env2) ->
  exists p1 p2 content2,
    Api.up_avatar_path resp1 = Some p1 /\ Api.up_avatar_path resp2 = Some p2 /\
    p1 <> p2 /\
    Api.file_read file2 = inr content2 /\
    Users.static_file settings os p1 w2 = None /\
    Users.static_file settings os p2 w2 = Some content2 /\
    avatar_path <$> users w2 !! user_id = Some (Some p2).
Proof.
  intros Hlay
    (user & content1 & ext1 & w1b & Huser & _ & Hext1 & _ & _ & _ & _ & -> & ->)
      %upload_user_avatar_ok_inv
    (user2 & content2 & ext2 & w2b & Huser2 & Hread2 & Hext2 & _ & Hold2 & _ & _ & -> & ->)
      %upload_user_avatar_ok_inv
    Hdraw.
  unfold committed in Huser2. cbn [users] in Huser2.
  rewrite lookup_insert_eq in Huser2. injection Huser2 as <-.
  unfold Api.delete_old_avatar in Hold2. cbn [with_avatar avatar_path] in Hold2.
  rewrite avatar_rel_cons in Hold2. rewrite <- avatar_rel_cons in Hold2.
  apply delete_avatar_ok_inv in Hold2 as [_ ->].
  pose proof (abs_path_of_upload settings os env1 root user_id ext1 Hlay Hext1) as Hk1.
  pose proof (abs_path_of_upload settings os env2 root user_id ext2 Hlay Hext2) as Hk2.
  assert (Os.fs_key os (Storage.file_path settings os env1 user_id ext1) <>
          Os.fs_key os (Storage.file_path settings os env2 user_id ext2)) as Hne.
  { intros H. apply file_path_key_inj in H; try done.
    - by apply file_name_inj in H as [? _].
    - destruct Hlay as [-> _]. apply str_app_nonempty.
    - destruct Hlay as [-> _]. rewrite ends_with_sep_app. by destruct os. }
  exists (avatar_rel env1 user_id ext1), (avatar_rel env2 user_id ext2), content2.
  repeat split; try done.
  - by intros (_ & ? & _)%avatar_rel_inj.
  - unfold Users.static_file, Users.static_file, Users.static_directory.
    change (os_path_join os (str_replace "avatars" "" (UPLOAD_DIR settings))
              (avatar_rel env1 user_id ext1))
      with (Storage.abs_path settings os (avatar_rel env1 user_id ext1)).
    unfold committed, removed. cbn [files]. apply lookup_delete_eq.
  - unfold Users.static_file, Users.static_directory.
    change (os_path_join os (str_replace "avatars" "" (UPLOAD_DIR settings))
              (avatar_rel env2 user_id ext2))
      with (Storage.abs_path settings os (avatar_rel env2 user_id ext2)).
    unfold committed, removed, uploaded. cbn [files].
    rewrite Hk1, Hk2, lookup_delete_ne by done. apply lookup_insert_eq.
  - unfold committed. cbn [users]. by rewrite lookup_insert_eq.
Qed.

Lemma second_upload_replaces_first_witness :
  exists resp1 w1 resp2 w2,
    Api.upload_user_avatar Sample.settings Posix Sample.env 7 (Sample.upload Sample.png)
      Sample.world = (inr resp1, w1) /\
    Api.upload_user_avatar Sample.settings Posix MoreSamples.env_other_draw 7
      (Sample.upload Sample.png) w1 = (inr resp2, w2) /\
    Api.up_avatar_path resp1 <> Api.up_avatar_path resp2.
Proof.
  pose (run1 := Api.upload_user_avatar Sample.settings Posix Sample.env 7
                  (Sample.upload Sample.png) Sample.world).
  destruct (fst run1) as [e|resp1] eqn:H1; [by vm_compute in H1|].
  assert (run1 = (inr resp1, snd run1)) as Hrun1
    by (rewrite <- H1; apply surjective_pairing).
  pose (run2 := Api.upload_user_avatar Sample.settings Posix MoreSamples.env_other_draw 7
                  (Sample.upload Sample.png) (snd run1)).
  destruct (fst run2) as [e|resp2] eqn:H2; [by vm_compute in H2|].
  assert (run2 = (inr resp2, snd run2)) as Hrun2
    by (rewrite <- H2; apply surjective_pairing).
  exists resp1, (snd run1), resp2, (snd run2).
  split; [exact Hrun1|]. split; [exact Hrun2|].
  destruct (second_upload_replaces_first Sample.settings Posix Sample.env
              MoreSamples.env_other_draw "uploads" 7 (Sample.upload Sample.png)
              (Sample.upload Sample.png) Sample.world resp1 (snd run1) resp2 (snd run2)
              ltac:(split; reflexivity) Hrun1 Hrun2 ltac:(by vm_compute))
    as (p1 & p2 & c2 & -> & -> & Hne & _).
  congruence.
Defined.

Lemma str_app_neq s c t : s +:+ String c t <> s.
Proof.
  induction s as [|a s IH]; [done|]. rewrite str_app_cons. intros [= H]. by apply IH.
Qed.

(** With an upload directory that is not empty and does not end in a
    separator, a file lies in the directory of its user, and not at it. *)
Lemma file_path_in_user_dir settings os env user_id ext :
  UPLOAD_DIR settings <> "" ->
  ends_with_sep os (UPLOAD_DIR settings) = false ->
  ext = "jpg" \/ ext = "png" \/ ext = "gif" ->
  Os.fs_key os (Storage.file_path settings os env user_id ext) <>
  Os.fs_key os (Storage.user_dir settings os user_id).
Proof.
  intros Hne Hend Hext. rewrite file_path_plain by done.
  unfold Storage.user_dir.
  rewrite (os_path_join_name os (UPLOAD_DIR settings)) by apply str_int_name.
  rewrite Hend, orb_false_r.
  destruct (String.eqb_spec (UPLOAD_DIR settings) "") as [E|_]; [done|].
  rewrite <- (str_app_assoc (UPLOAD_DIR settings)).
  rewrite (fs_key_app os (_ +:+ str_int user_id)), (fs_key_app os (os_sep os)).
  assert (exists c, Os.fs_key os (os_sep os) = String c "") as [c ->]
    by (destruct os; eexists; reflexivity).
  rewrite str_app_cons. apply str_app_neq.
Qed.

(** X17. A row that points to a missing file locks the user out of
    uploading.  With the layout [<root>/avatars], when the row holds the
    path of an earlier upload (another UUID) and nothing is at that path,
    every upload that gets as far as writing its file raises the 404 of a
    missing avatar file, leaves the user table untouched, and still nothing
    is at the old path afterwards: the three conditions on the row hold
    again in the resulting world, so the next upload fails the same way. *)
Theorem dangling_path_blocks_uploads
    settings os env env0 root user_id file w user ext0 content new w1 :
  avatars_layout settings root ->
  users w !! user_id = Some user ->
  avatar_path user = Some (avatar_rel env0 user_id ext0) ->
  ext0 = "jpg" \/ ext0 = "png" \/ ext0 = "gif" ->
  Os.path_exists os (Storage.abs_path settings os (avatar_rel env0 user_id ext0)) w = false ->
  uuid4_int (os_urandom env0) <> uuid4_int (os_urandom env) ->
  Api.file_read file = inr content ->
  Storage.upload_avatar settings os env user_id content w = (inr new, w1) ->
  Api.upload_user_avatar settings os env user_id file w =
    (inl (HTTPException 404 AvatarFileMissing), w1) /\
  users w1 = users w /\
  Os.path_exists os (Storage.abs_path settings os (avatar_rel env0 user_id ext0)) w1 = false.
Proof.
  intros Hlay Huser Hpath Hext0 Hgone Hdraw Hread Hup.
  pose proof Hup
    as (m & ext & _ & _ & _ & _ & Hext & -> & _ & _ & _ & _ & ->)%upload_avatar_ok_inv.
  pose proof (abs_path_of_upload settings os env0 root user_id ext0 Hlay Hext0) as Hk0.
  assert (UPLOAD_DIR settings <> "") as Hne
    by (destruct Hlay as [-> _]; apply str_app_nonempty).
  assert (ends_with_sep os (UPLOAD_DIR settings) = false) as Hend
    by (destruct Hlay as [-> _]; rewrite ends_with_sep_app; by destruct os).
  assert (Os.path_exists os (Storage.abs_path settings os (avatar_rel env0 user_id ext0))
            (uploaded settings os env user_id ext content w) = false) as Hgone1.
  { apply orb_false_iff in Hgone as [Hf Hd].
    unfold Os.path_exists, Os.is_file, Os.is_dir, uploaded in *. simpl.
    apply bool_decide_eq_false_1 in Hf, Hd.
    apply orb_false_iff. split; apply bool_decide_eq_false_2.
    - rewrite lookup_insert_ne; [done|]. rewrite Hk0. intros H.
      apply file_path_key_inj in H; try done.
      by apply file_name_inj in H as [? _].
    - intros [H%elem_of_singleton | H]%elem_of_union; [|done].
      rewrite Hk0 in H. by apply file_path_in_user_dir in H. }
  split; [|by split].
  unfold Api.upload_user_avatar, bind, Session.get.
  rewrite Huser, Hread. unfold ret at 1. rewrite Hup.
  unfold Api.delete_old_avatar. rewrite Hpath, avatar_rel_cons.
  rewrite <- avatar_rel_cons. by rewrite delete_avatar_missing.
Qed.

Lemma dangling_path_blocks_uploads_witness :
  exists w1,
    Api.upload_user_avatar Sample.settings Posix Sample.env 7 (Sample.upload Sample.png)
      MoreSamples.world_dangling = (inl (HTTPException 404 AvatarFileMissing), w1) /\
    users w1 = users MoreSamples.world_dangling.
Proof.
  pose (up := Storage.upload_avatar Sample.settings Posix Sample.env 7 Sample.png
                MoreSamples.world_dangling).
  exists (snd up).
  destruct (dangling_path_blocks_uploads Sample.settings Posix Sample.env
              MoreSamples.env_other_draw "uploads" 7 (Sample.upload Sample.png)
              MoreSamples.world_dangling
              (mkUser "alice" (Some (avatar_rel MoreSamples.env_other_draw 7 "png")))
              "png" Sample.png "avatars/7/00000000-0000-4000-8000-000000000000.png"
              (snd up))
    as (Hrun & Husers & _); [| | | | | | | | by split].
  - split; vm_compute; reflexivity.
  - vm_compute; reflexivity.
  - reflexivity.
  - right; left; reflexivity.
  - vm_compute; reflexivity.
  - vm_compute. discriminate.
  - reflexivity.
  - vm_compute; reflexivity.
Defined.

(** X9. A storage step that fails costs the user no row and no avatar:
    whenever [upload_avatar] raises inside [upload_user_avatar], for a bad
    buffer, a directory that cannot be made or a file that cannot be
    written, the endpoint surfaces that very error and the user table is as
    before.  The world is as it was, or the directory of the user was made
    and the file could not be opened, or the file was opened and the write
    raised (status 500 in both cases): then a file is left at the new path
    with the bytes that reached the disk.  With the layout [<root>/avatars],
    the file of an avatar on record from an earlier upload (another UUID)
    is untouched in all of these. *)
Theorem failed_storage_step_keeps_avatar settings os env user_id file w user content e w1 :
  users w !! user_id = Some user ->
  Api.file_read file = inr content ->
  Storage.upload_avatar settings os env user_id content w = (inl e, w1) ->
  Api.upload_user_avatar settings os env user_id file w = (inl e, w1) /\
  users w1 = users w /\
  (w1 = w \/
   exists e0 ext,
     e = HTTPException 500 (WriteFailed e0) /\
     (w1 = dir_made settings os user_id w \/
      exists n,
        w1 = write_failed os (Storage.file_path settings os env user_id ext)
               (take n content) (dir_made settings os user_id w))) /\
  (forall root env0 ext0,
     avatars_layout settings root ->
     avatar_path user = Some (avatar_rel env0 user_id ext0) ->
     ext0 = "jpg" \/ ext0 = "png" \/ ext0 = "gif" ->
     uuid4_int (os_urandom env0) <> uuid4_int (os_urandom env) ->
     files w1 !! Os.fs_key os (Storage.abs_path settings os (avatar_rel env0 user_id ext0)) =
     files w !! Os.fs_key os (Storage.abs_path settings os (avatar_rel env0 user_id ext0))).
Proof.
  intros Huser Hread Hup. split; [|split; [by eapply upload_avatar_users|]].
  - unfold Api.upload_user_avatar, bind, Session.get.
    rewrite Huser, Hread. unfold ret at 1. by rewrite Hup.
  - apply upload_avatar_err_cases in Hup
      as [-> | (e0 & ext & -> & Hext & [-> | (msg & n & -> & _ & ->)])].
    + split; [by left | done].
    + split; [right; exists e0, ext; split; [done | by left] | done].
    + split; [right; exists (PyException msg), ext; split; [done | right; by exists n]|].
      intros root env0 ext0 Hlay _ Hext0 Hdraw.
      rewrite (abs_path_of_upload settings os env0 root user_id ext0 Hlay Hext0).
      cbn [files write_failed dir_made]. apply lookup_insert_ne. intros H.
      apply file_path_key_inj in H; try done.
      * apply file_name_inj in H as [H _]. by apply Hdraw.
      * destruct Hlay as [-> _]. apply str_app_nonempty.
      * destruct Hlay as [-> _]. rewrite ends_with_sep_app. by destruct os.
Qed.

Lemma failed_storage_step_keeps_avatar_witness :
  exists w1,
    Api.upload_user_avatar Sample.settings Posix MoreSamples.env_disk_full 7
      (Sample.upload Sample.png) Sample.world_with_avatar =
      (inl (HTTPException 500 (WriteFailed (PyException "ENOSPC"))), w1) /\
    files w1 !! "uploads/avatars/7/00000000-0000-4000-8000-000000000000.png" =
      Some [x89; x50; x4e] /\
    files w1 !! ("uploads/" +:+ Sample.old_rel) = Some Sample.text /\
    users w1 = users Sample.world_with_avatar.
Proof.
  pose (up := Storage.upload_avatar Sample.settings Posix MoreSamples.env_disk_full 7
                Sample.png Sample.world_with_avatar).
  exists (snd up).
  destruct (failed_storage_step_keeps_avatar Sample.settings Posix
              MoreSamples.env_disk_full 7 (Sample.upload Sample.png)
              Sample.world_with_avatar (mkUser "alice" (Some Sample.old_rel)) Sample.png
              (HTTPException 500 (WriteFailed (PyException "ENOSPC"))) (snd up))
    as (Hrun & Husers & _ & Hold); try (vm_compute; reflexivity).
  split; [exact Hrun|]. split; [vm_compute; reflexivity|]. split; [|exact Husers].
  specialize (Hold "uploads" MoreSamples.env_old_draw "jpg").
  replace ("uploads/" +:+ Sample.old_rel)
    with (Os.fs_key Posix (Storage.abs_path Sample.settings Posix
                             (avatar_rel MoreSamples.env_old_draw 7 "jpg")))
    by (vm_compute; reflexivity).
  rewrite Hold.
  - vm_compute. reflexivity.
  - split; reflexivity.
  - vm_compute. reflexivity.
  - auto.
  - vm_compute. discriminate.
Defined.

(** X10. What [upload_avatar] never does: in any run it leaves the user
    table alone, drops no directory and no file, and leaves the content of
    every file but the one it writes as it was.  When it returns, that file
    holds the uploaded bytes.  When it raises, the files are as before, or
    the write was what raised and that file holds the bytes that reached
    the disk, in place of whatever was there. *)
Theorem upload_avatar_frame settings os env user_id content w r w' :
  Storage.upload_avatar settings os env user_id content w = (r, w') ->
  users w' = users w /\
  dirs w ⊆ dirs w' /\
  (forall k, is_Some (files w !! k) -> is_Some (files w' !! k)) /\
  exists ext,
    (forall k, k <> Os.fs_key os (Storage.file_path settings os env user_id ext) ->
               files w' !! k = files w !! k) /\
    (forall p, r = inr p ->
       p = avatar_rel env user_id ext /\
       files w' !! Os.fs_key os (Storage.file_path settings os env user_id ext)
         = Some content) /\
    (forall e, r = inl e ->
       files w' = files w \/
       exists msg n,
         e = HTTPException 500 (WriteFailed (PyException msg)) /\
         write_error env (Storage.file_path settings os env user_id ext) = Some (msg, n) /\
         files w' = <[Os.fs_key os (Storage.file_path settings os env user_id ext)
                      := take n content]> (files w)).
Proof.
  intros Hup. split; [by eapply upload_avatar_users|].
  destruct r as [e|p].
  - apply upload_avatar_err_cases in Hup
      as [-> | (e0 & ext & -> & Hext & [-> | (msg & n & -> & Hwe & ->)])].
    + repeat split; try done. exists "jpg". repeat split; try done. intros; by left.
    + split; [simpl; apply union_subseteq_r|]. split; [done|].
      exists ext. repeat split; try done. intros; by left.
    + split; [simpl; apply union_subseteq_r|]. split.
      * intros k Hk. cbn [files write_failed dir_made].
        destruct (decide (Os.fs_key os (Storage.file_path settings os env user_id ext) = k))
          as [<-|Hne]; [by rewrite lookup_insert_eq | by rewrite lookup_insert_ne].
      * exists ext. split; [|split; [done|]].
        -- intros k Hk. cbn [files write_failed dir_made]. by rewrite lookup_insert_ne.
        -- intros e [= <-]. right. exists msg, n. by repeat split.
  - apply upload_avatar_ok_inv in Hup
      as (m & ext & _ & _ & _ & _ & _ & -> & _ & _ & _ & _ & ->).
    split; [simpl; apply union_subseteq_r|]. split.
    + intros k Hk. simpl files.
      destruct (decide (Os.fs_key os (Storage.file_path settings os env user_id ext) = k))
        as [<-|Hne]; [by rewrite lookup_insert_eq | by rewrite lookup_insert_ne].
    + exists ext. split; [|split; [|done]].
      * intros k Hk. simpl files. by rewrite lookup_insert_ne.
      * intros p [= <-]. split; [done|]. simpl files. apply lookup_insert_eq.
Qed.

Lemma upload_avatar_frame_witness :
  exists p w',
    Storage.upload_avatar Sample.settings Posix Sample.env 7 Sample.png
      Sample.world_with_avatar = (inr p, w') /\
    files w' !! ("uploads/" +:+ Sample.old_rel) = Some Sample.text.
Proof.
  pose (up := Storage.upload_avatar Sample.settings Posix Sample.env 7 Sample.png
                Sample.world_with_avatar).
  assert (up = (inr "avatars/7/00000000-0000-4000-8000-000000000000.png", snd up)) as Hup
    by (vm_compute; reflexivity).
  exists "avatars/7/00000000-0000-4000-8000-000000000000.png", (snd up).
  split; [exact Hup|].
  destruct (upload_avatar_frame Sample.settings Posix Sample.env 7 Sample.png
              Sample.world_with_avatar _ (snd up) Hup) as (_ & _ & Hkeep & _).
  destruct (Hkeep ("uploads/" +:+ Sample.old_rel)) as [x Hx].
  { exists Sample.text. vm_compute. reflexivity. }
  vm_compute. reflexivity.
Defined.
